(** * conventional-pre-commit: the commit-msg hook

    A shallow embedding of [conventional_pre_commit/hook.py].  The hook reads
    a commit message from a file, asks the [format] module whether the
    message follows Conventional Commits and answers with an exit status;
    with [--edit] it sends the user back to the editor until the message
    conforms.

    Python text is modelled by [string], the file system by a finite map
    from paths to files, and the effects of [main] (reading, writing,
    printing, running processes, calling [format]) by a state-and-exception
    monad over a [world] that also records every effect in a log. *)

From Stdlib Require Import ZArith Ascii String Lia.
From stdpp Require Import base strings list gmap.

Local Open Scope Z_scope.

(** ** Python string helpers *)

Module Py.

(** [sep.join(parts)] *)
Fixpoint join (sep : string) (parts : list string) : string :=
  match parts with
  | [] => ""
  | [p] => p
  | p :: rest => p +:+ sep +:+ join sep rest
  end.

(** [s.split(sep)] for a one-character separator: every occurrence of the
    separator cuts, so the empty string gives one empty field. *)
Fixpoint split (sep : ascii) (s : string) : list string :=
  match s with
  | EmptyString => [""]
  | String c rest =>
      if decide (c = sep) then "" :: split sep rest
      else match split sep rest with
           | field :: fields => String c field :: fields
           | [] => [String c ""]
           end
  end.

(** [s.rstrip(chars)] for a one-character set: drops the run of that
    character at the end of the string. *)
Fixpoint rstrip (c : ascii) (s : string) : string :=
  match s with
  | EmptyString => ""
  | String a rest =>
      match rstrip c rest with
      | EmptyString => if decide (a = c) then "" else String a ""
      | kept => String a kept
      end
  end.

(** Text-mode reading with the default [newline=None]: a carriage return,
    alone or followed by a line feed, is read as one line feed. *)
Fixpoint universal_newlines (s : string) : string :=
  match s with
  | EmptyString => ""
  | String "013" (String "010" rest) => String "010" (universal_newlines rest)
  | String "013" rest => String "010" (universal_newlines rest)
  | String c rest => String c (universal_newlines rest)
  end.

(** Truth value of a string: only the empty string is falsy. *)
Definition truthy (s : string) : bool :=
  match s with EmptyString => false | String _ _ => true end.

End Py.

(** ** Constants of the module *)

Definition RESULT_SUCCESS : Z := 0.
Definition RESULT_FAIL : Z := 1.

Module Colors.
Definition LBLUE : string := String "027" "[00;34m".
Definition LRED : string := String "027" "[01;31m".
Definition RESTORE : string := String "027" "[0m".
Definition YELLOW : string := String "027" "[00;33m".
End Colors.

(** Modelled from the spec: [format.DEFAULT_TYPES], the built-in list of
    types of the [format] module, which is not part of the sources at hand.
    The spec gives it as the eleven types below, in this order. *)
Definition DEFAULT_TYPES : list string :=
  ["build"; "chore"; "ci"; "docs"; "feat"; "fix"; "perf"; "refactor";
   "revert"; "style"; "test"].

(** ** Exceptions and results *)

Inductive exn : Type :=
| SystemExit (code : Z)
| OSError
| OtherError (name : string).

(** The outcome of running a piece of the program: a value, an exception
    that leaves it, or no answer within the given number of loop rounds. *)
Inductive res (A : Type) : Type :=
| Val (a : A)
| Raised (e : exn)
| OutOfFuel.
Arguments Val {A} a.
Arguments Raised {A} e.
Arguments OutOfFuel {A}.

(** ** Files *)

(** What [open(path, encoding="utf-8")] can find at a path: bytes that
    decode as UTF-8 to a text, or bytes that do not.  A path missing from
    the map cannot be opened. *)
Inductive file : Type :=
| Utf8 (text : string)
| NotUtf8.

(** What [with open(path, "wt") as f: f.write(a); f.write(b)] can do to
    the file at [path].  The file is opened in the encoding of the
    locale, not in UTF-8, and nothing guards the block: the open can
    raise and leave the file as it was; a write can raise after the file
    has been emptied, leaving what had been written before; or both
    texts are written, as bytes that the hook may or may not be able to
    decode as UTF-8 when it reads the file again. *)
Inductive write_outcome : Type :=
| OpenFailed (e : exn)
| WriteFailed (e : exn) (kept : file)
| Written (now : file).

(** ** The command line *)

(** What the argument parser found on a command line, before defaults. *)
Record cmdline : Type := Cmdline {
  given_types : list string;
  given_input : string;
  given_force_scope : bool;
  given_scopes : option string;
  given_strict : bool;
  given_edit : bool
}.

(** The namespace [parser.parse_args] returns. *)
Record namespace : Type := Namespace {
  ns_types : list string;
  ns_input : string;
  ns_optional_scope : bool;
  ns_scopes : option string;
  ns_strict : bool;
  ns_edit : bool
}.

(** The [add_argument] declarations of [main]: [types] is [nargs="*"] with
    default [format.DEFAULT_TYPES], which argparse uses when no type is
    given; [--force-scope] is [store_false] into [optional_scope] with
    default [True]; [--scopes] defaults to [None]; [--strict] and [--edit]
    are [store_true]. *)
Definition namespace_of (c : cmdline) : namespace :=
  {| ns_types := match given_types c with
                 | [] => DEFAULT_TYPES
                 | _ :: _ => given_types c
                 end;
     ns_input := given_input c;
     ns_optional_scope := negb (given_force_scope c);
     ns_scopes := given_scopes c;
     ns_strict := given_strict c;
     ns_edit := given_edit c |}.

(** The value of the local variable [scopes] of [main]: a list when
    [args.scopes] was truthy and has been split, otherwise [args.scopes]
    itself, which is then [None] or the empty string. *)
Inductive scopes_value : Type :=
| ScopesNone
| ScopesEmptyStr
| ScopesList (allowed : list string).

(** Lines 72-75 of [hook.py]. *)
Definition scopes_of_args (arg : option string) : scopes_value :=
  match arg with
  | None => ScopesNone
  | Some s => if Py.truthy s then ScopesList (Py.split "," s) else ScopesEmptyStr
  end.

(** The [CompletedProcess] that [subprocess.run] returns. *)
Record CompletedProcess : Type := Completed {
  returncode : Z;
  stdout : string
}.

(** ** Effects *)

Inductive event : Type :=
| EvRead (path : string)
| EvWrite (path : string) (text : string)
| EvPrint (text : string)
| EvAutosquash (message : string)
| EvClassify (message : string) (types : list string)
             (optional_scope : bool) (scopes : scopes_value)
| EvRun (cmd : list string).

(** ** Texts printed and written by the hook *)

Definition encoding_error_text : string :=
  "
" +:+ Colors.LRED +:+ "[Bad Commit message encoding] " +:+ Colors.RESTORE +:+ "

" +:+ Colors.YELLOW +:+ "conventional-pre-commit couldn't decode your commit message." +:+ Colors.RESTORE +:+ "
" +:+ Colors.YELLOW +:+ "UTF-8" +:+ Colors.RESTORE +:+ " encoding is assumed, please configure git to write commit messages in UTF-8.
See " +:+ Colors.LBLUE +:+ "https://git-scm.com/docs/git-commit/#_discussion" +:+ Colors.RESTORE +:+ " for more.
        ".

Definition bad_message_text (message types_line : string) : string :=
  "
        " +:+ Colors.LRED +:+ "[Bad Commit message] >>" +:+ Colors.RESTORE +:+ " " +:+ message +:+ "
        " +:+ Colors.YELLOW +:+ "Your commit message does not follow Conventional Commits formatting
        " +:+ Colors.LBLUE +:+ "https://www.conventionalcommits.org/" +:+ Colors.YELLOW +:+ "

        Conventional Commits start with one of the below types, followed by a colon,
        followed by the commit subject and an optional body seperated by a blank line:" +:+ Colors.RESTORE +:+ "

            " +:+ types_line +:+ "

        " +:+ Colors.YELLOW +:+ "Example commit message adding a feature:" +:+ Colors.RESTORE +:+ "

            feat: implement new API

        " +:+ Colors.YELLOW +:+ "Example commit message fixing an issue:" +:+ Colors.RESTORE +:+ "

            fix: remove infinite loop

        " +:+ Colors.YELLOW +:+ "Example commit with scope in parentheses after the type for more context:" +:+ Colors.RESTORE +:+ "

            fix(account): remove infinite loop

        " +:+ Colors.YELLOW +:+ "Example commit with a body:" +:+ Colors.RESTORE +:+ "

            fix: remove infinite loop

            Additional information on the issue caused by the infinite loop
            ".

Definition help_header (types_line : string) : string :=
  "# Your commit message does not follow Conventional Commits formatting
# https://www.conventionalcommits.org/

# Conventional Commits start with one of the below types, followed by a colon,
# followed by the commit subject and an optional body seperated by a blank line:

#     " +:+ types_line +:+ "
#
#     Please edit the message to follow Conventional Commits below and remove this header.".

(** ** The hook *)

Section Hook.

(** The state of whatever the processes started by the hook depend on
    besides the files: the user at the editor, the git configuration. *)
Context {Env : Type}.

Record world : Type := World {
  files : gmap string file;
  env : Env;
  log : list event
}.

(** [sys.argv] of the running interpreter. *)
Variable sys_argv : list string.

(** [parser.parse_args] of the standard library, up to the defaults that
    [main] declares: either the parser leaves with [SystemExit] and an
    exit code (2 after an error, 0 after [--help]), or it has found a
    command line. *)
Variable argparse : list string -> Z + cmdline.

(** The functions of [conventional_pre_commit.format] that [main] calls;
    the module is not among the sources at hand.  The spec has them
    total and free of side effects. *)
Variable has_autosquash_prefix : string -> bool.
Variable is_conventional :
  string -> list string -> bool -> scopes_value -> bool.
Variable conventional_types : list string -> list string.

(** [subprocess.run(cmd)]: the process may change the files and its
    environment, and either completes or the call raises (the program
    cannot be started, say). *)
Variable run_process :
  list string -> gmap string file -> Env ->
  (exn + CompletedProcess) * gmap string file * Env.

(** What writing two texts, one after the other, to the file at a path
    does, given the files and the rest of the environment (permissions,
    the encoding of the locale). *)
Variable write_texts :
  string -> string -> string -> gmap string file -> Env -> write_outcome.

(** *** A state-and-exception monad over the world *)

Definition M (A : Type) : Type := world -> res A * world.

Definition ret {A} (a : A) : M A := fun w => (Val a, w).

Definition raise {A} (e : exn) : M A := fun w => (Raised e, w).

Definition bind {A B} (m : M A) (k : A -> M B) : M B :=
  fun w =>
    match m w with
    | (Val a, w') => k a w'
    | (Raised e, w') => (Raised e, w')
    | (OutOfFuel, w') => (OutOfFuel, w')
    end.

Notation "'let!' x ':=' m 'in' k" := (bind m (fun x => k))
  (at level 10, x name, m at level 100, k at level 200).
Notation "'do!' m 'in' k" := (bind m (fun _ => k))
  (at level 10, m at level 100, k at level 200).

Definition record (e : event) (w : world) : world :=
  {| files := files w; env := env w; log := log w ++ [e] |}.

Definition emit (e : event) : M unit := fun w => (Val tt, record e w).

Definition print (text : string) : M unit := emit (EvPrint text).

(** [with open(path, encoding="utf-8") as f: return f.read()], where a
    [UnicodeDecodeError] is the only exception named apart. *)
Inductive read_outcome : Type :=
| ReadText (text : string)
| ReadDecodeError
| ReadOSError.

Definition open_read (path : string) : M read_outcome :=
  fun w =>
    (Val match files w !! path with
         | Some (Utf8 text) => ReadText (Py.universal_newlines text)
         | Some NotUtf8 => ReadDecodeError
         | None => ReadOSError
         end,
     record (EvRead path) w).

(** [with open(path, "wt") as f: f.write(a); f.write(b)].  The event
    logged is the call, with the text [a + b] that it is to write,
    whatever comes of it. *)
Definition open_write (path a b : string) : M unit :=
  fun w =>
    let logged := log w ++ [EvWrite path (a +:+ b)] in
    match write_texts path a b (files w) (env w) with
    | OpenFailed e =>
        (Raised e, {| files := files w; env := env w; log := logged |})
    | WriteFailed e kept =>
        (Raised e,
         {| files := <[path := kept]> (files w); env := env w;
            log := logged |})
    | Written now =>
        (Val tt,
         {| files := <[path := now]> (files w); env := env w;
            log := logged |})
    end.

Definition subprocess_run (cmd : list string) : M CompletedProcess :=
  fun w =>
    match run_process cmd (files w) (env w) with
    | (r, fs, e) =>
        (match r with inl x => Raised x | inr done => Val done end,
         {| files := fs; env := e; log := log w ++ [EvRun cmd] |})
    end.

Definition call_has_autosquash_prefix (message : string) : M bool :=
  fun w => (Val (has_autosquash_prefix message),
            record (EvAutosquash message) w).

Definition call_is_conventional (message : string) (types : list string)
    (optional_scope : bool) (scopes : scopes_value) : M bool :=
  fun w => (Val (is_conventional message types optional_scope scopes),
            record (EvClassify message types optional_scope scopes) w).

(** *** [read_message_or_exit] *)

Definition read_message_or_exit (message_path : string) : M string :=
  let! r := open_read message_path in
  match r with
  | ReadText text => ret text
  | ReadDecodeError =>
      do! print encoding_error_text in
      raise (SystemExit RESULT_FAIL)
  | ReadOSError => raise OSError
  end.

(** *** [main] *)

Definition parse_args (argv : list string) : Z + namespace :=
  match argparse argv with
  | inl code => inl code
  | inr c => inr (namespace_of c)
  end.

Definition types_line (types : list string) : string :=
  Py.join " " (conventional_types types).

(** The [while True] loop of [main]; every round costs one unit of fuel. *)
Fixpoint edit_loop (fuel : nat) (args : namespace) (scopes : scopes_value)
    (editor : string) : M Z :=
  match fuel with
  | O => fun w => (OutOfFuel, w)
  | S fuel' =>
      let! message := read_message_or_exit (ns_input args) in
      let! ok := call_is_conventional message (ns_types args)
                   (ns_optional_scope args) scopes in
      if ok then ret RESULT_SUCCESS
      else
        do! open_write (ns_input args)
              (help_header (types_line (ns_types args))) message in
        do! subprocess_run [editor; ns_input args] in
        edit_loop fuel' args scopes editor
  end.

Definition effective_argv (argv : list string) : list string :=
  if (length argv <? 1)%nat then drop 1 sys_argv else argv.

Definition main (fuel : nat) (argv : list string) : M Z :=
  match parse_args (effective_argv argv) with
  | inl _ => ret RESULT_FAIL
  | inr args =>
      let! message := read_message_or_exit (ns_input args) in
      let scopes := scopes_of_args (ns_scopes args) in
      let! exempt := (if negb (ns_strict args)
                      then call_has_autosquash_prefix message
                      else ret false) in
      if exempt then ret RESULT_SUCCESS
      else
        let! ok := call_is_conventional message (ns_types args)
                     (ns_optional_scope args) scopes in
        if ok then ret RESULT_SUCCESS
        else if negb (ns_edit args) then
          do! print (bad_message_text message (types_line (ns_types args))) in
          ret RESULT_FAIL
        else
          let! git_var := subprocess_run ["git"; "var"; "GIT_EDITOR"] in
          let editor := Py.rstrip "010" (stdout git_var) in
          edit_loop fuel args scopes editor
  end.

(** *** Vocabulary for the properties of [main] *)

(** The world after the read and the checks that precede the verdict. *)
Definition checked (args : namespace) (message : string) (w : world)
    : world :=
  let scopes := scopes_of_args (ns_scopes args) in
  let w1 := record (EvRead (ns_input args)) w in
  let w2 := if ns_strict args then w1
            else record (EvAutosquash message) w1 in
  record (EvClassify message (ns_types args) (ns_optional_scope args)
            scopes) w2.

(** One round of the loop: [true] when the message read conforms and the
    loop is left, [false] when the file has been rewritten and the
    editor has run. *)
Definition loop_round (args : namespace) (scopes : scopes_value)
    (editor : string) : M bool :=
  let! message := read_message_or_exit (ns_input args) in
  let! ok := call_is_conventional message (ns_types args)
               (ns_optional_scope args) scopes in
  if ok then ret true
  else
    do! open_write (ns_input args)
          (help_header (types_line (ns_types args))) message in
    do! subprocess_run [editor; ns_input args] in
    ret false.

(** The world after [k] rounds that all sent the user back to the
    editor, if the first [k] rounds do so. *)
Fixpoint after_rounds (k : nat) (args : namespace) (scopes : scopes_value)
    (editor : string) (w : world) : option world :=
  match k with
  | O => Some w
  | S k' =>
      match loop_round args scopes editor w with
      | (Val false, w') => after_rounds k' args scopes editor w'
      | _ => None
      end
  end.

(** What an event logged by a run of [main] with arguments [args] looks
    like. *)
Definition hook_event (args : namespace) (e : event) : Prop :=
  match e with
  | EvRead path => path = ns_input args
  | EvPrint _ => True
  | EvAutosquash _ => ns_strict args = false
  | EvClassify _ types optional_scope scopes =>
      types = ns_types args /\
      optional_scope = ns_optional_scope args /\
      scopes = scopes_of_args (ns_scopes args)
  | EvWrite path text =>
      ns_edit args = true /\ path = ns_input args /\
      exists message,
        text = help_header (types_line (ns_types args)) +:+ message /\
        is_conventional message (ns_types args) (ns_optional_scope args)
          (scopes_of_args (ns_scopes args)) = false
  | EvRun _ => ns_edit args = true
  end.

End Hook.

(** A process table that reports other exit statuses and is otherwise the
    same. *)
Definition with_status {Env : Type} (status : Z -> Z)
    (run_process : list string -> gmap string file -> Env ->
                   (exn + CompletedProcess) * gmap string file * Env)
    (cmd : list string) (fs : gmap string file) (e : Env)
    : (exn + CompletedProcess) * gmap string file * Env :=
  match run_process cmd fs e with
  | (inr done, fs', e') =>
      (inr (Completed (status (returncode done)) (stdout done)), fs', e')
  | raised => raised
  end.

Arguments World {Env} files env log.
Arguments world Env : clear implicits.

(** ** The classifier of the [format] module *)

Module Format.

(** Lower case of an ASCII letter; other characters are kept. *)
Definition lower (c : ascii) : ascii :=
  let n := nat_of_ascii c in
  if ((65 <=? n) && (n <=? 90))%nat then ascii_of_nat (n + 32) else c.

Fixpoint lowercase (s : string) : string :=
  match s with
  | EmptyString => ""
  | String c rest => String (lower c) (lowercase rest)
  end.

(** The text before the first line feed, or the whole text. *)
Fixpoint first_line (s : string) : string :=
  match s with
  | EmptyString => ""
  | String c rest =>
      if decide (c = "010"%char) then "" else String c (first_line rest)
  end.

(** Removal of the white space at the end of a text. *)
Fixpoint rtrim (s : string) : string :=
  match s with
  | EmptyString => ""
  | String c rest =>
      match rtrim rest with
      | EmptyString => if Ascii.is_space c then "" else String c ""
      | kept => String c kept
      end
  end.

(** The text before and after the first occurrence of a character. *)
Fixpoint cut (sep : ascii) (s : string) : option (string * string) :=
  match s with
  | EmptyString => None
  | String c rest =>
      if decide (c = sep) then Some ("", rest)
      else match cut sep rest with
           | Some (before, after) => Some (String c before, after)
           | None => None
           end
  end.

(** A text without its last character, and that character. *)
Fixpoint unsnoc (s : string) : option (string * ascii) :=
  match s with
  | EmptyString => None
  | String c rest =>
      match unsnoc rest with
      | None => Some ("", c)
      | Some (init, last) => Some (String c init, last)
      end
  end.

Fixpoint has_char (p : ascii -> bool) (s : string) : bool :=
  match s with
  | EmptyString => false
  | String c rest => p c || has_char p rest
  end.

Definition scope_char (c : ascii) : bool :=
  negb (bool_decide (c = "("%char) || bool_decide (c = ")"%char)
        || bool_decide (c = ":"%char) || bool_decide (c = "010"%char)).

(** The parts of a header [type(scope)!: description]. *)
Record header : Type := Header {
  h_type : string;
  h_scope : option string;
  h_breaking : bool;
  h_description : string
}.

(** Modelled from the spec: the header grammar of the [format] module,
    which is not part of the sources at hand.
    [header := type [ "(" scope ")" ] [ "!" ] ":" " " description]: the
    first colon is the structural one; the marker is a [!] right before
    it; a scope is one or more characters other than parentheses, colon
    and line feed, between a [(] and a [)] that ends the prefix; the
    description follows one space and holds a character that is not
    white space. *)
Definition parse_header (line : string) : option header :=
  match cut ":" line with
  | None => None
  | Some (prefix, after_colon) =>
      match after_colon with
      | String " " description =>
          if has_char (fun c => negb (Ascii.is_space c)) description then
            let (body, breaking) :=
              match unsnoc prefix with
              | Some (init, "!"%char) => (init, true)
              | _ => (prefix, false)
              end in
            match cut "(" body with
            | None => Some (Header body None breaking description)
            | Some (type, after_paren) =>
                match unsnoc after_paren with
                | Some (scope, ")"%char) =>
                    if Py.truthy scope
                       && negb (has_char (fun c => negb (scope_char c)) scope)
                    then Some (Header type (Some scope) breaking description)
                    else None
                | _ => None
                end
            end
          else None
      | _ => None
      end
  end.

(** Modelled from the spec: the allow-list behind the [scopes] argument;
    a value that is unset or empty gives no allow-list. *)
Definition allow_list (scopes : scopes_value) : list string :=
  match scopes with
  | ScopesNone | ScopesEmptyStr => []
  | ScopesList allowed => allowed
  end.

(** Modelled from the spec: the types in force, the built-in list when
    the configured list is empty. *)
Definition types_in_force (types : list string) : list string :=
  match types with
  | [] => DEFAULT_TYPES
  | _ :: _ => types
  end.

(** Modelled from the spec: [format.is_conventional], which is not part
    of the sources at hand, after the decision procedure of the spec:
    the header is the first line without the white space at its end; it
    has to match the grammar; a scope has to be in the allow-list when
    there is one; without a scope, [optional_scope] has to hold; the
    type has to equal a type in force, letter case apart; and a [!] that
    is not right before the colon, so one that the type token carries,
    rejects the header. *)
Definition is_conventional (message : string) (types : list string)
    (optional_scope : bool) (scopes : scopes_value) : bool :=
  match parse_header (rtrim (first_line message)) with
  | None => false
  | Some h =>
      match h_scope h with
      | Some scope =>
          match allow_list scopes with
          | [] => true
          | allowed => bool_decide (scope ∈ allowed)
          end
      | None => optional_scope
      end
      && existsb (fun t => bool_decide (lowercase t = lowercase (h_type h)))
           (types_in_force types)
      && negb (has_char (fun c => bool_decide (c = "!"%char)) (h_type h))
  end.

(** The headers [type(scope): description], and the tokens the grammar
    allows in them. *)
Definition scoped_header (type scope description : string) : string :=
  type +:+ String "(" (scope +:+ String ")" (String ":" (String " " description))).



Definition valid_scope (scope : string) : bool :=
  Py.truthy scope && negb (has_char (fun c => negb (scope_char c)) scope).


(** Modelled from the spec: [format.has_autosquash_prefix], which is not
    part of the sources at hand; the spec has it true of every message
    that starts with [fixup! ], [squash! ] or [amend! ]. *)
Definition has_autosquash_prefix (message : string) : bool :=
  existsb (fun p => String.prefix p message) ["fixup! "; "squash! "; "amend! "].

End Format.

(** Writing where the locale encodes in UTF-8 and the file can be
    written: the file then holds the two texts, one after the other, as
    UTF-8. *)
Definition utf8_write {Env : Type} (path a b : string)
    (fs : gmap string file) (e : Env) : write_outcome :=
  Written (Utf8 (a +:+ b)).

(** ** An instance to run the hook on *)

Module Demo.

(** A stand-in for the argument parser on plain command lines: options
    spelled in full come first, the value of [--scopes] is the argument
    after it, and the positional arguments close the line, the last one
    being the input file and the ones before it types.  Any other command
    line is rejected here. *)
Definition positional (arg : string) : bool := negb (String.prefix "-" arg).

Fixpoint scan (argv : list string) (force strict edit : bool)
    (scopes : option string) : Z + cmdline :=
  match argv with
  | [] => inl 2
  | arg :: rest =>
      if decide (arg = "--force-scope") then scan rest true strict edit scopes
      else if decide (arg = "--strict") then scan rest force true edit scopes
      else if decide (arg = "--edit") then scan rest force strict true scopes
      else if decide (arg = "--scopes") then
        match rest with
        | [] => inl 2
        | value :: rest' =>
            if positional value
            then scan rest' force strict edit (Some value)
            else inl 2
        end
      else if decide (arg = "--help") then inl 0
      else if forallb positional argv then
        inr (Cmdline (removelast argv) (List.last argv "") force scopes
               strict edit)
      else inl 2
  end.

Definition argparse (argv : list string) : Z + cmdline :=
  scan argv false false false None.

(** The types are displayed as they are. *)
Definition conventional_types (types : list string) : list string := types.

(** The environment is the list of texts the user will save, one at each
    visit to the editor; with none left the user leaves the editor
    without saving and the editor reports failure.  [git var GIT_EDITOR]
    answers [vi]. *)
Definition run_process (cmd : list string) (fs : gmap string file)
    (saves : list string)
    : (exn + CompletedProcess) * gmap string file * list string :=
  if decide (cmd = ["git"; "var"; "GIT_EDITOR"]) then
    (inr (Completed 0 "vi
"), fs, saves)
  else
    match cmd, saves with
    | [_; path], text :: later =>
        (inr (Completed 0 ""), <[path := Utf8 text]> fs, later)
    | [_; path], [] => (inr (Completed 1 ""), fs, [])
    | _, _ => (inl OSError, fs, saves)
    end.

Definition sys_argv : list string := ["conventional-pre-commit"].

(** [main] with the classifier of [Format], the parts above and writes
    that succeed in UTF-8. *)
Definition hook : nat -> list string -> M (Env := list string) Z :=
  main sys_argv argparse Format.has_autosquash_prefix
    Format.is_conventional conventional_types run_process utf8_write.

Definition msg_path : string := ".git/COMMIT_EDITMSG".

(** A world with one commit message and a user who will save the given
    texts. *)
Definition start (message : string) (saves : list string)
    : world (list string) :=
  World {[ msg_path := Utf8 message ]} saves [].

(** The namespaces and the command line of the runs looked at below. *)
Definition plain_args : namespace :=
  Namespace DEFAULT_TYPES msg_path true None false false.

Definition edit_args : namespace :=
  Namespace DEFAULT_TYPES msg_path true None false true.



End Demo.

(** ** Vocabulary for further properties *)

(** The command that asks git for the editor. *)
Definition git_var_cmd : list string := ["git"; "var"; "GIT_EDITOR"].

Module Text.

(** Number of occurrences of a character in a text. *)
Fixpoint count (c : ascii) (s : string) : nat :=
  match s with
  | EmptyString => 0%nat
  | String a rest => ((if decide (a = c) then 1 else 0) + count c rest)%nat
  end.

(** The text made of [n] times the character [c]. *)
Fixpoint replicate (n : nat) (c : ascii) : string :=
  match n with
  | O => ""
  | S n' => String c (replicate n' c)
  end.

End Text.

(** The message file after [k] rounds of the loop in which the editor
    left the file as the hook had written it: every round reads the text
    and writes the header in front of what it has read. *)
Definition stacked (header : string) (k : nat) (text : string) : string :=
  Nat.iter k (fun t => header +:+ Py.universal_newlines t) text.

(** What an event logged by the loop of [main] looks like. *)
Definition loop_event (header : string) (args : namespace)
    (scopes : scopes_value) (editor : string) (e : event) : Prop :=
  match e with
  | EvRead path => path = ns_input args
  | EvPrint text => text = encoding_error_text
  | EvAutosquash _ => False
  | EvClassify _ types optional_scope scopes' =>
      types = ns_types args /\
      optional_scope = ns_optional_scope args /\
      scopes' = scopes
  | EvWrite path text =>
      path = ns_input args /\ exists message, text = header +:+ message
  | EvRun cmd => cmd = [editor; ns_input args]
  end.

Definition is_print (e : event) : Prop :=
  match e with EvPrint _ => True | _ => False end.

(** A second instance: processes that leave the files alone; the editor
    reports failure and [git var GIT_EDITOR] answers [vi]. *)
Module Idle.

Definition run_process (cmd : list string) (fs : gmap string file) (e : unit)
    : (exn + CompletedProcess) * gmap string file * unit :=
  if decide (cmd = git_var_cmd) then
    (inr (Completed 0 "vi
"), fs, e)
  else (inr (Completed 1 ""), fs, e).

Definition hook : nat -> list string -> M (Env := unit) Z :=
  main Demo.sys_argv Demo.argparse Format.has_autosquash_prefix
    Format.is_conventional Demo.conventional_types run_process utf8_write.

Definition start (message : string) : world unit :=
  World {[ Demo.msg_path := Utf8 message ]} tt [].

End Idle.


(** * Properties of the hook *)

Section HookFacts.

Context {Env : Type}.
Variable sys_argv : list string.
Variable argparse : list string -> Z + cmdline.
Variable has_autosquash_prefix : string -> bool.
Variable is_conventional :
  string -> list string -> bool -> scopes_value -> bool.
Variable conventional_types : list string -> list string.
Variable run_process :
  list string -> gmap string file -> Env ->
  (exn + CompletedProcess) * gmap string file * Env.
Variable write_texts :
  string -> string -> string -> gmap string file -> Env -> write_outcome.

Local Abbreviation hook_main :=
  (main sys_argv argparse has_autosquash_prefix is_conventional
     conventional_types run_process write_texts).
Local Abbreviation hook_loop :=
  (edit_loop is_conventional conventional_types run_process write_texts).
Local Abbreviation classify := (call_is_conventional is_conventional).
Local Abbreviation run := (subprocess_run run_process).
Local Abbreviation round :=
  (loop_round is_conventional conventional_types run_process write_texts).
Local Abbreviation rounds k :=
  (after_rounds is_conventional conventional_types run_process write_texts
     k).
Local Abbreviation header_for args :=
  (help_header (types_line conventional_types (ns_types args))).

Implicit Types (w : world Env) (args : namespace) (fuel : nat).

(** *** Reading the message *)

Lemma read_message_text w path text :
  files w !! path = Some (Utf8 text) ->
  read_message_or_exit path w
  = (Val (Py.universal_newlines text), record (EvRead path) w).
Proof.
  intros Hfile. unfold read_message_or_exit, bind, open_read.
  now rewrite Hfile.
Qed.

Lemma read_message_undecodable w path :
  files w !! path = Some NotUtf8 ->
  read_message_or_exit path w
  = (Raised (SystemExit RESULT_FAIL),
     record (EvPrint encoding_error_text) (record (EvRead path) w)).
Proof.
  intros Hfile. unfold read_message_or_exit, bind, open_read.
  now rewrite Hfile.
Qed.

Lemma read_message_missing w path :
  files w !! path = None ->
  read_message_or_exit path w = (Raised OSError, record (EvRead path) w).
Proof.
  intros Hfile. unfold read_message_or_exit, bind, open_read.
  now rewrite Hfile.
Qed.

(** Reading never changes the files or the environment, and logs the
    read, followed by a print when the bytes do not decode. *)
Lemma read_message_frame w path :
  let out := read_message_or_exit path w in
  files out.2 = files w /\ env out.2 = env w /\
  exists printed, log out.2 = log w ++ EvRead path :: map EvPrint printed.
Proof.
  unfold read_message_or_exit, bind, open_read. cbn.
  destruct (files w !! path) as [[text|]|]; cbn;
    repeat split; try reflexivity.
  - now exists [].
  - exists [encoding_error_text]. now rewrite <- app_assoc.
  - now exists [].
Qed.

(** *** The straight-line part of [main] *)

Lemma main_parsed fuel argv w args text :
  parse_args argparse (effective_argv sys_argv argv) = inr args ->
  files w !! ns_input args = Some (Utf8 text) ->
  let message := Py.universal_newlines text in
  let scopes := scopes_of_args (ns_scopes args) in
  hook_main fuel argv w =
    if negb (ns_strict args) && has_autosquash_prefix message then
      (Val RESULT_SUCCESS,
       record (EvAutosquash message) (record (EvRead (ns_input args)) w))
    else if is_conventional message (ns_types args)
              (ns_optional_scope args) scopes then
      (Val RESULT_SUCCESS, checked args message w)
    else if negb (ns_edit args) then
      (Val RESULT_FAIL,
       record (EvPrint (bad_message_text message
                          (types_line conventional_types (ns_types args))))
         (checked args message w))
    else
      bind (run ["git"; "var"; "GIT_EDITOR"])
        (fun git_var =>
           hook_loop fuel args scopes (Py.rstrip "010" (stdout git_var)))
        (checked args message w).
Proof.
  intros Hparse Hfile message scopes. unfold main. rewrite Hparse.
  unfold bind at 1. rewrite (read_message_text _ _ _ Hfile).
  fold message. unfold checked. fold scopes.
  destruct (ns_strict args); cbn [negb andb].
  - unfold bind at 1. unfold ret at 1. unfold bind at 1.
    unfold call_is_conventional at 1.
    destruct (is_conventional message _ _ scopes); [reflexivity|].
    destruct (ns_edit args); cbn [negb]; reflexivity.
  - unfold bind at 1. unfold call_has_autosquash_prefix.
    destruct (has_autosquash_prefix message); [reflexivity|].
    unfold bind at 1. unfold call_is_conventional at 1.
    destruct (is_conventional message _ _ scopes); [reflexivity|].
    destruct (ns_edit args); cbn [negb]; reflexivity.
Qed.

Lemma main_rejected fuel argv w code :
  argparse (effective_argv sys_argv argv) = inl code ->
  hook_main fuel argv w = (Val RESULT_FAIL, w).
Proof.
  intros Hparse. unfold main, parse_args. now rewrite Hparse.
Qed.

Lemma main_unreadable fuel argv w args :
  parse_args argparse (effective_argv sys_argv argv) = inr args ->
  files w !! ns_input args <> None ->
  (forall text, files w !! ns_input args <> Some (Utf8 text)) ->
  hook_main fuel argv w
  = (Raised (SystemExit RESULT_FAIL),
     record (EvPrint encoding_error_text)
       (record (EvRead (ns_input args)) w)).
Proof.
  intros Hparse Hsome Htext. unfold main. rewrite Hparse.
  unfold bind at 1.
  destruct (files w !! ns_input args) as [[text|]|] eqn:Hfile;
    [now destruct (Htext text) | | now destruct Hsome].
  now rewrite (read_message_undecodable _ _ Hfile).
Qed.

Lemma main_missing fuel argv w args :
  parse_args argparse (effective_argv sys_argv argv) = inr args ->
  files w !! ns_input args = None ->
  hook_main fuel argv w
  = (Raised OSError, record (EvRead (ns_input args)) w).
Proof.
  intros Hparse Hfile. unfold main. rewrite Hparse. unfold bind at 1.
  now rewrite (read_message_missing _ _ Hfile).
Qed.

(** *** The loop, round by round *)

Lemma loop_unfold fuel args scopes editor w :
  hook_loop (S fuel) args scopes editor w =
    match round args scopes editor w with
    | (Val true, w') => (Val RESULT_SUCCESS, w')
    | (Val false, w') => hook_loop fuel args scopes editor w'
    | (Raised e, w') => (Raised e, w')
    | (OutOfFuel, w') => (OutOfFuel, w')
    end.
Proof.
  cbn [edit_loop]. unfold loop_round, bind.
  destruct (read_message_or_exit (ns_input args) w) as [[message|e|] w1];
    try reflexivity.
  unfold call_is_conventional.
  destruct (is_conventional message _ _ scopes); [reflexivity|].
  unfold open_write, subprocess_run. cbn [files env log].
  destruct (write_texts _ _ _ _ _) as [e|e kept|now]; try reflexivity.
  cbn [files env log].
  destruct (run_process _ _ _) as [[[e|done] fs] e']; reflexivity.
Qed.

(** A round on a readable file, spelled out. *)
Lemma round_text args scopes editor w text :
  files w !! ns_input args = Some (Utf8 text) ->
  let message := Py.universal_newlines text in
  let w1 := record (EvClassify message (ns_types args)
                      (ns_optional_scope args) scopes)
              (record (EvRead (ns_input args)) w) in
  round args scopes editor w =
    if is_conventional message (ns_types args) (ns_optional_scope args)
         scopes
    then (Val true, w1)
    else
      let call := log w1 ++ [EvWrite (ns_input args)
                               (header_for args +:+ message)] in
      match write_texts (ns_input args) (header_for args) message (files w)
              (env w) with
      | OpenFailed e => (Raised e, World (files w) (env w) call)
      | WriteFailed e kept =>
          (Raised e,
           World (<[ns_input args := kept]> (files w)) (env w) call)
      | Written now =>
          let ran := run_process [editor; ns_input args]
                       (<[ns_input args := now]> (files w)) (env w) in
          (match ran.1.1 with inl e => Raised e | inr _ => Val false end,
           World ran.1.2 ran.2 (call ++ [EvRun [editor; ns_input args]]))
      end.
Proof.
  intros Hfile message w1. unfold loop_round. unfold bind at 1.
  rewrite (read_message_text _ _ _ Hfile). fold message.
  unfold bind at 1, call_is_conventional. fold w1.
  destruct (is_conventional message _ _ scopes); [reflexivity|].
  unfold bind, open_write, subprocess_run, ret. cbn [files env log].
  destruct (write_texts _ _ _ _ _) as [e|e kept|now]; try reflexivity.
  cbn [files env log].
  destruct (run_process _ _ _) as [[[e|done] fs] e']; reflexivity.
Qed.

Lemma round_never_out_of_fuel args scopes editor w :
  (round args scopes editor w).1 <> OutOfFuel.
Proof.
  unfold loop_round, bind, read_message_or_exit, bind, open_read.
  destruct (files w !! ns_input args) as [[text|]|]; cbn; try discriminate.
  unfold call_is_conventional.
  destruct (is_conventional _ _ _ scopes); cbn; [discriminate|].
  unfold open_write. cbn.
  destruct (write_texts _ _ _ _ _) as [e|e kept|now]; try discriminate.
  unfold subprocess_run. cbn.
  destruct (run_process _ _ _) as [[[e|done] fs] e']; discriminate.
Qed.

Lemma round_trace args editor w :
  ns_edit args = true ->
  exists evs,
    log (round args (scopes_of_args (ns_scopes args)) editor w).2
    = log w ++ evs /\
    Forall (hook_event is_conventional conventional_types args) evs.
Proof.
  intros Hedit.
  destruct (files w !! ns_input args) as [[text|]|] eqn:Hfile.
  - rewrite (round_text _ _ _ _ _ Hfile).
    destruct (is_conventional _ _ _ _) eqn:Hok.
    + eexists. split; [cbn; rewrite <- app_assoc; reflexivity|].
      repeat constructor.
    + cbn zeta.
      destruct (write_texts _ _ _ _ _) as [e|e kept|now];
        (eexists; split; [cbn; rewrite <- !app_assoc; reflexivity|]);
        repeat constructor; auto; eexists; (split; [reflexivity|exact Hok]).
  - unfold loop_round, bind. rewrite (read_message_undecodable _ _ Hfile).
    eexists. split; [cbn; rewrite <- app_assoc; reflexivity|].
    repeat constructor.
  - unfold loop_round, bind. rewrite (read_message_missing _ _ Hfile).
    eexists. split; [reflexivity|]. repeat constructor.
Qed.

Lemma loop_trace args editor fuel : forall w,
  ns_edit args = true ->
  exists evs,
    log (hook_loop fuel args (scopes_of_args (ns_scopes args)) editor w).2
    = log w ++ evs /\
    Forall (hook_event is_conventional conventional_types args) evs.
Proof.
  induction fuel as [|fuel IH]; intros w Hedit.
  - exists []. split; [cbn; now rewrite app_nil_r | constructor].
  - rewrite loop_unfold.
    destruct (round_trace args editor w Hedit) as (evs & Hlog & Hevs).
    destruct (round _ _ editor w) as [[[|]|e|] w'] eqn:Hround;
      cbn [snd] in Hlog; try (exists evs; now split).
    destruct (IH w' Hedit) as (evs' & Hlog' & Hevs').
    exists (evs ++ evs'). split.
    + now rewrite Hlog', Hlog, app_assoc.
    + now apply Forall_app.
Qed.

(** *** When the loop ends *)


Lemma loop_value_inv args scopes editor fuel : forall w code w',
  hook_loop fuel args scopes editor w = (Val code, w') ->
  code = RESULT_SUCCESS /\
  exists k wk, (k < fuel)%nat /\
    rounds k args scopes editor w = Some wk /\
    round args scopes editor wk = (Val true, w').
Proof.
  induction fuel as [|fuel IH]; intros w code w' Hloop;
    [discriminate|].
  rewrite loop_unfold in Hloop.
  destruct (round args scopes editor w) as [[[|]|e|] w1] eqn:Hround;
    try discriminate.
  - injection Hloop as <- <-. split; [reflexivity|].
    exists 0%nat, w. split; [lia|]. now split.
  - destruct (IH _ _ _ Hloop) as (-> & k & wk & Hk & Hrounds & Hlast).
    split; [reflexivity|]. exists (S k), wk. split; [lia|].
    split; [|assumption]. cbn [after_rounds]. now rewrite Hround.
Qed.

Lemma loop_out_of_fuel args scopes editor fuel : forall w,
  (hook_loop fuel args scopes editor w).1 = OutOfFuel <->
  is_Some (rounds fuel args scopes editor w).
Proof.
  induction fuel as [|fuel IH]; intros w.
  - cbn. split; [now eexists|reflexivity].
  - rewrite loop_unfold. cbn [after_rounds].
    pose proof (round_never_out_of_fuel args scopes editor w) as Hnever.
    destruct (round args scopes editor w) as [[[|]|e|] w1]; cbn [fst].
    + split; [discriminate|]. intros [? ?]. discriminate.
    + apply IH.
    + split; [discriminate|]. intros [? ?]. discriminate.
    + now destruct Hnever.
Qed.

(** *** How the loop is left by an exception *)



(** *** What a run of [main] logs and touches *)

Lemma main_trace fuel argv w args :
  parse_args argparse (effective_argv sys_argv argv) = inr args ->
  let out := hook_main fuel argv w in
  (exists evs,
     log out.2 = log w ++ evs /\
     Forall (hook_event is_conventional conventional_types args) evs) /\
  (ns_edit args = false -> files out.2 = files w /\ env out.2 = env w).
Proof.
  intros Hparse.
  destruct (files w !! ns_input args) as [[text|]|] eqn:Hfile.
  - rewrite (main_parsed _ _ _ _ _ Hparse Hfile). unfold checked.
    destruct (ns_strict args) eqn:Hstrict; cbn [negb andb].
    + destruct (is_conventional _ _ _ _) eqn:Hok.
      { split; [|intros _; split; reflexivity].
        eexists. split; [cbn; rewrite <- app_assoc; reflexivity|].
        repeat constructor. }
      destruct (ns_edit args) eqn:Hedit; cbn [negb].
      * split; [|discriminate].
        unfold bind, subprocess_run. cbn [files env log record].
        destruct (run_process _ _ _) as [[[e|done] fs] e'].
        { eexists. split; [cbn; rewrite <- !app_assoc; reflexivity|].
          repeat constructor; auto. }
        match goal with
        | |- context [edit_loop _ _ _ _ fuel args _ ?ed ?w0] =>
            destruct (loop_trace args ed fuel w0 Hedit)
              as (evs & Hlog & Hevs)
        end.
        rewrite Hlog. cbn [log]. rewrite <- !app_assoc.
        eexists. split; [reflexivity|].
        repeat (constructor; auto).
      * split; [|intros _; split; reflexivity].
        eexists. split; [cbn; rewrite <- !app_assoc; reflexivity|].
        repeat constructor.
    + destruct (has_autosquash_prefix _).
      { split; [|intros _; split; reflexivity].
        eexists. split; [cbn; rewrite <- app_assoc; reflexivity|].
        repeat constructor; auto. }
      destruct (is_conventional _ _ _ _) eqn:Hok.
      { split; [|intros _; split; reflexivity].
        eexists. split; [cbn; rewrite <- !app_assoc; reflexivity|].
        repeat constructor; auto. }
      destruct (ns_edit args) eqn:Hedit; cbn [negb].
      * split; [|discriminate].
        unfold bind, subprocess_run. cbn [files env log record].
        destruct (run_process _ _ _) as [[[e|done] fs] e'].
        { eexists. split; [cbn; rewrite <- !app_assoc; reflexivity|].
          repeat constructor; auto. }
        match goal with
        | |- context [edit_loop _ _ _ _ fuel args _ ?ed ?w0] =>
            destruct (loop_trace args ed fuel w0 Hedit)
              as (evs & Hlog & Hevs)
        end.
        rewrite Hlog. cbn [log]. rewrite <- !app_assoc.
        eexists. split; [reflexivity|].
        repeat (constructor; auto).
      * split; [|intros _; split; reflexivity].
        eexists. split; [cbn; rewrite <- !app_assoc; reflexivity|].
        repeat constructor; auto.
  - rewrite (main_unreadable _ _ _ _ Hparse); [|congruence..].
    split; [|intros _; split; reflexivity].
    eexists. split; [cbn; rewrite <- app_assoc; reflexivity|].
    repeat constructor.
  - rewrite (main_missing _ _ _ _ Hparse Hfile).
    split; [|intros _; split; reflexivity].
    eexists. split; [reflexivity|]. repeat constructor.
Qed.

End HookFacts.

(** *** The exit status of a process is not looked at *)

Lemma subprocess_run_with_status {Env : Type} status
    (run_process : list string -> gmap string file -> Env ->
                   (exn + CompletedProcess) * gmap string file * Env)
    cmd (w : world Env) :
  subprocess_run (with_status status run_process) cmd w =
    match subprocess_run run_process cmd w with
    | (Val done, w') =>
        (Val (Completed (status (returncode done)) (stdout done)), w')
    | other => other
    end.
Proof.
  unfold subprocess_run, with_status.
  destruct (run_process cmd (files w) (env w)) as [[[e|done] fs] e'];
    reflexivity.
Qed.

Lemma edit_loop_with_status {Env : Type} status is_conventional
    conventional_types
    (run_process : list string -> gmap string file -> Env ->
                   (exn + CompletedProcess) * gmap string file * Env)
    write_texts args scopes editor fuel : forall w : world Env,
  edit_loop is_conventional conventional_types
    (with_status status run_process) write_texts fuel args scopes editor w
  = edit_loop is_conventional conventional_types run_process write_texts
      fuel args scopes editor w.
Proof.
  induction fuel as [|fuel IH]; intros w; [reflexivity|].
  cbn [edit_loop]. unfold bind.
  destruct (read_message_or_exit (ns_input args) w) as [[message|e|] w1];
    try reflexivity.
  destruct (call_is_conventional _ _ _ _ _ w1) as [[[|]|e|] w2];
    try reflexivity.
  destruct (open_write _ _ _ _ w2) as [[[]|e|] w3]; try reflexivity.
  rewrite subprocess_run_with_status.
  destruct (subprocess_run run_process _ w3) as [[done|e|] w4];
    try reflexivity.
  apply IH.
Qed.

Lemma main_with_status {Env : Type} status sys_argv argparse
    has_autosquash_prefix is_conventional conventional_types
    (run_process : list string -> gmap string file -> Env ->
                   (exn + CompletedProcess) * gmap string file * Env)
    write_texts fuel argv (w : world Env) :
  main sys_argv argparse has_autosquash_prefix is_conventional
    conventional_types (with_status status run_process) write_texts fuel
    argv w
  = main sys_argv argparse has_autosquash_prefix is_conventional
      conventional_types run_process write_texts fuel argv w.
Proof.
  unfold main.
  destruct (parse_args argparse _) as [code|args]; [reflexivity|].
  unfold bind.
  destruct (read_message_or_exit (ns_input args) w) as [[message|e|] w1];
    try reflexivity.
  destruct ((if negb (ns_strict args)
             then call_has_autosquash_prefix has_autosquash_prefix message
             else ret false) w1) as [[[|]|e|] w2]; try reflexivity.
  destruct (call_is_conventional _ _ _ _ _ w2) as [[[|]|e|] w3];
    try reflexivity.
  destruct (negb (ns_edit args)); [reflexivity|].
  rewrite subprocess_run_with_status.
  destruct (subprocess_run run_process _ w3) as [[done|e|] w4];
    try reflexivity.
  cbn [stdout]. apply edit_loop_with_status.
Qed.

(** * Properties of the classifier *)

Module FormatFacts.
Import Format.

Lemma app_cons c s t : String c s +:+ t = String c (s +:+ t).
Proof. reflexivity. Qed.










Lemma unsnoc_snoc s c : unsnoc (s +:+ String c "") = Some (s, c).
Proof.
  induction s as [|a s IH]; [reflexivity|].
  rewrite app_cons. cbn [unsnoc]. now rewrite IH.
Qed.


Lemma app_assoc s t u : (s +:+ t) +:+ u = s +:+ (t +:+ u).
Proof.
  induction s as [|c s IH]; [reflexivity|]. now rewrite !app_cons, IH.
Qed.




Lemma valid_scope_nonempty scope : valid_scope scope = true -> scope <> "".
Proof. now destruct scope. Qed.




Lemma type_in_force_found type types :
  type ∈ types_in_force types ->
  existsb (fun t => bool_decide (lowercase t = lowercase type))
    (types_in_force types) = true.
Proof.
  intros Hin%list_elem_of_In. apply existsb_exists. exists type.
  split; [assumption|]. now apply bool_decide_eq_true.
Qed.


(** The classifier on the examples of the spec. *)
Example plain_header_conforms :
  is_conventional "feat: add x" DEFAULT_TYPES true ScopesNone = true.
Proof. reflexivity. Qed.

Example scope_in_list_conforms :
  is_conventional "feat(api): add x" DEFAULT_TYPES true (ScopesList ["api"])
  = true /\
  is_conventional "feat(api): add x" DEFAULT_TYPES true
    (ScopesList ["client"]) = false.
Proof. split; reflexivity. Qed.

Example missing_scope_rejected :
  is_conventional "feat: add x" DEFAULT_TYPES false ScopesNone = false.
Proof. reflexivity. Qed.

Example marker_without_scope_conforms :
  is_conventional "feat!: breaking change" DEFAULT_TYPES true ScopesNone
  = true.
Proof. reflexivity. Qed.

Example text_without_colon_rejected types optional_scope scopes :
  is_conventional "random text" types optional_scope scopes = false.
Proof. reflexivity. Qed.

Example unknown_type_rejected :
  is_conventional "unknowntype: x" ["feat"; "fix"] true ScopesNone = false.
Proof. reflexivity. Qed.

Example type_case_ignored :
  is_conventional "Feat: add x" DEFAULT_TYPES true ScopesNone = true.
Proof. reflexivity. Qed.

Example empty_message_rejected types optional_scope scopes :
  is_conventional "" types optional_scope scopes = false.
Proof. reflexivity. Qed.

Example scoped_header_text :
  scoped_header "feat" "api" "add x" = "feat(api): add x".
Proof. reflexivity. Qed.

End FormatFacts.

(** * The hook on the instance *)

Module DemoFacts.





End DemoFacts.

(** * The claims about the hook *)

Section Claims.

Context {Env : Type}.
Variable sys_argv : list string.
Variable argparse : list string -> Z + cmdline.
Variable has_autosquash_prefix : string -> bool.
Variable is_conventional :
  string -> list string -> bool -> scopes_value -> bool.
Variable conventional_types : list string -> list string.
Variable run_process :
  list string -> gmap string file -> Env ->
  (exn + CompletedProcess) * gmap string file * Env.
Variable write_texts :
  string -> string -> string -> gmap string file -> Env -> write_outcome.

Local Abbreviation hook_main :=
  (main sys_argv argparse has_autosquash_prefix is_conventional
     conventional_types run_process write_texts).
Local Abbreviation hook_loop :=
  (edit_loop is_conventional conventional_types run_process write_texts).
Local Abbreviation round :=
  (loop_round is_conventional conventional_types run_process write_texts).
Local Abbreviation rounds k :=
  (after_rounds is_conventional conventional_types run_process write_texts
     k).
Local Abbreviation header_for args :=
  (help_header (types_line conventional_types (ns_types args))).

Implicit Types (w : world Env) (args : namespace) (fuel : nat).


(** C7: a message file whose bytes do not decode as UTF-8 is fatal:
    [read_message_or_exit] prints the text about the encoding, which is
    not the text of a non-conforming message, and raises [SystemExit]
    with status 1; no text is returned, and [main] is left by that
    exception without a verdict. *)
Theorem undecodable_message_is_fatal w path :
  files w !! path = Some NotUtf8 ->
  read_message_or_exit path w
  = (Raised (SystemExit RESULT_FAIL),
     record (EvPrint encoding_error_text) (record (EvRead path) w)) /\
  RESULT_FAIL = 1 /\
  (forall message types_line,
     encoding_error_text <> bad_message_text message types_line) /\
  (forall fuel argv args,
     parse_args argparse (effective_argv sys_argv argv) = inr args ->
     ns_input args = path ->
     hook_main fuel argv w
     = (Raised (SystemExit RESULT_FAIL),
        record (EvPrint encoding_error_text) (record (EvRead path) w))).
Proof.
  intros Hfile. split; [now apply read_message_undecodable|].
  split; [reflexivity|]. split.
  - intros message types_line Heq.
    apply (f_equal (String.get 1)) in Heq. discriminate Heq.
  - intros fuel argv args Hparse <-.
    apply main_unreadable; [assumption| |]; now rewrite Hfile.
Qed.

(** C8: when the argument parser rejects the command line, so leaves
    with [SystemExit] whatever its code, [main] returns [RESULT_FAIL],
    which is 1: no exception leaves [main], the status is not 2, and
    the hook has read, printed and written nothing. *)
Theorem parse_error_returns_fail fuel argv w code :
  argparse (effective_argv sys_argv argv) = inl code ->
  hook_main fuel argv w = (Val RESULT_FAIL, w) /\
  RESULT_FAIL = 1 /\ RESULT_FAIL <> 2.
Proof.
  intros Hparse. split; [now apply (main_rejected _ _ _ _ _ _ _ _ _ _ code)|].
  now split.
Qed.


(** C10: without [--edit] a run of [main] leaves every file (and the
    environment of the processes) as it was, whatever the message and
    the outcome, and neither writes a file nor starts a process; so does
    a run whose command line is rejected.  In any run, a write goes to
    the message file, happens under [--edit] only, and is to put the
    help header in front of a message that was found not to conform; it
    is made by a round of the loop, with the message just read.  What the
    write does is up to the file and the locale: if the open fails the
    file is left alone and the exception ends the round; if a write
    fails the file holds what was written and the exception ends the
    round; after a complete write the editor is started on the file as
    written. *)
Theorem file_written_only_when_editing fuel argv w :
  let out := hook_main fuel argv w in
  (forall code,
     argparse (effective_argv sys_argv argv) = inl code -> out.2 = w) /\
  (forall args,
     parse_args argparse (effective_argv sys_argv argv) = inr args ->
     (ns_edit args = false ->
      files out.2 = files w /\ env out.2 = env w) /\
     exists evs,
       log out.2 = log w ++ evs /\
       Forall (fun e =>
                 match e with
                 | EvWrite path text =>
                     ns_edit args = true /\ path = ns_input args /\
                     exists message,
                       text = header_for args +:+ message /\
                       is_conventional message (ns_types args)
                         (ns_optional_scope args)
                         (scopes_of_args (ns_scopes args)) = false
                 | EvRun _ => ns_edit args = true
                 | _ => True
                 end) evs) /\
  (forall args scopes editor w0 text,
     files w0 !! ns_input args = Some (Utf8 text) ->
     let message := Py.universal_newlines text in
     is_conventional message (ns_types args) (ns_optional_scope args)
       scopes = false ->
     let call :=
       log w0 ++ [EvRead (ns_input args);
                  EvClassify message (ns_types args)
                    (ns_optional_scope args) scopes;
                  EvWrite (ns_input args) (header_for args +:+ message)] in
     round args scopes editor w0 =
       match write_texts (ns_input args) (header_for args) message
               (files w0) (env w0) with
       | OpenFailed e => (Raised e, World (files w0) (env w0) call)
       | WriteFailed e kept =>
           (Raised e,
            World (<[ns_input args := kept]> (files w0)) (env w0) call)
       | Written now =>
           let ran := run_process [editor; ns_input args]
                        (<[ns_input args := now]> (files w0)) (env w0) in
           (match ran.1.1 with inl e => Raised e | inr _ => Val false end,
            World ran.1.2 ran.2 (call ++ [EvRun [editor; ns_input args]]))
       end).
Proof.
  intros out. split; [|split].
  - intros code Hraw. unfold out.
    now rewrite (main_rejected _ _ _ _ _ _ _ _ _ _ code Hraw).
  - intros args Hparse.
    destruct (main_trace sys_argv argparse has_autosquash_prefix
                is_conventional conventional_types run_process
                  write_texts fuel argv
                w args Hparse) as [(evs & Hlog & Hevs) Hframe].
    split; [exact Hframe|].
    exists evs. split; [exact Hlog|].
    eapply Forall_impl; [exact Hevs|].
    intros [] He; cbn in He |- *; tauto.
  - intros args scopes editor w0 text Hfile message Hbad call.
    rewrite (round_text _ _ _ _ _ _ _ _ _ Hfile).
    fold message. rewrite Hbad. cbn zeta. cbn [log record].
    unfold call. rewrite <- !app_assoc. reflexivity.
Qed.





End Claims.

(** C3: the breaking-change marker is taken right before the colon only.
    With the scope [api] allowed, [feat(api)!: breaking] conforms for
    every configuration in which [feat] is a type in force, and
    [feat!(api): breaking], with the marker before the parentheses,
    conforms for no configuration. *)
Theorem breaking_marker_before_colon :
  (forall types optional_scope,
     "feat" ∈ Format.types_in_force types ->
     Format.is_conventional "feat(api)!: breaking" types optional_scope
       (ScopesList ["api"]) = true) /\
  (forall types optional_scope scopes,
     Format.is_conventional "feat!(api): breaking" types optional_scope
       scopes = false).
Proof.
  split.
  - intros types optional_scope Hin. unfold Format.is_conventional.
    change (Format.parse_header
              (Format.rtrim (Format.first_line "feat(api)!: breaking")))
      with (Some (Format.Header "feat" (Some "api") true "breaking")).
    cbn [Format.h_scope Format.h_type Format.allow_list].
    rewrite (FormatFacts.type_in_force_found _ _ Hin).
    reflexivity.
  - intros types optional_scope scopes. unfold Format.is_conventional.
    change (Format.parse_header
              (Format.rtrim (Format.first_line "feat!(api): breaking")))
      with (Some (Format.Header "feat!" (Some "api") false "breaking")).
    cbn [Format.h_type]. apply andb_false_r.
Qed.

(** * The claims on the instance *)

Module Instances.



Lemma breaking_marker_before_colon_witness :
  Format.is_conventional "feat(api)!: breaking" [] false (ScopesList ["api"])
  = true.
Proof.
  apply (proj1 breaking_marker_before_colon [] false).
  apply (bool_decide_unpack _). vm_compute. exact I.
Defined.




Lemma undecodable_message_is_fatal_witness :
  read_message_or_exit Demo.msg_path
    (World {[ Demo.msg_path := NotUtf8 ]} ([] : list string) [])
  = (Raised (SystemExit 1),
     World {[ Demo.msg_path := NotUtf8 ]} []
       [EvRead Demo.msg_path; EvPrint encoding_error_text]).
Proof.
  refine (proj1 (undecodable_message_is_fatal Demo.sys_argv Demo.argparse
                   Format.has_autosquash_prefix Format.is_conventional
                   Demo.conventional_types Demo.run_process utf8_write
                   (World {[ Demo.msg_path := NotUtf8 ]} [] [])
                   Demo.msg_path _)).
  vm_compute. reflexivity.
Defined.

Lemma parse_error_returns_fail_witness :
  Demo.argparse (effective_argv Demo.sys_argv ["--strict"]) = inl 2 /\
  Demo.hook 0 ["--strict"] (Demo.start "feat: add x" [])
  = (Val 1, Demo.start "feat: add x" []).
Proof.
  split; [reflexivity|].
  refine (proj1 (parse_error_returns_fail Demo.sys_argv Demo.argparse
                   Format.has_autosquash_prefix Format.is_conventional
                   Demo.conventional_types Demo.run_process utf8_write 0%nat
                   ["--strict"] (Demo.start "feat: add x" []) 2 _)).
  reflexivity.
Defined.


Lemma file_written_only_when_editing_witness :
  files (Demo.hook 0 [Demo.msg_path] (Demo.start "bad" [])).2
  = files (Demo.start "bad" []).
Proof.
  destruct (file_written_only_when_editing Demo.sys_argv Demo.argparse
              Format.has_autosquash_prefix Format.is_conventional
              Demo.conventional_types Demo.run_process utf8_write 0%nat
              [Demo.msg_path] (Demo.start "bad" []))
    as (_ & Hparsed & _).
  destruct (Hparsed Demo.plain_args eq_refl) as [Hframe _].
  exact (proj1 (Hframe eq_refl)).
Defined.


End Instances.

(** * Further properties of the hook *)

Section Further.

Context {Env : Type}.
Variable sys_argv : list string.
Variable argparse : list string -> Z + cmdline.
Variable has_autosquash_prefix : string -> bool.
Variable is_conventional :
  string -> list string -> bool -> scopes_value -> bool.
Variable conventional_types : list string -> list string.
Variable run_process :
  list string -> gmap string file -> Env ->
  (exn + CompletedProcess) * gmap string file * Env.
Variable write_texts :
  string -> string -> string -> gmap string file -> Env -> write_outcome.

Local Abbreviation hook_main :=
  (main sys_argv argparse has_autosquash_prefix is_conventional
     conventional_types run_process write_texts).
Local Abbreviation hook_loop :=
  (edit_loop is_conventional conventional_types run_process write_texts).
Local Abbreviation round :=
  (loop_round is_conventional conventional_types run_process write_texts).
Local Abbreviation rounds k :=
  (after_rounds is_conventional conventional_types run_process write_texts
     k).
Local Abbreviation header_for args :=
  (help_header (types_line conventional_types (ns_types args))).

Implicit Types (w : world Env) (args : namespace) (fuel : nat).

(** *** The branch of [main] that enters the loop *)

Lemma checked_frame args message w :
  files (checked args message w) = files w /\
  env (checked args message w) = env w.
Proof. unfold checked. now destruct (ns_strict args). Qed.

Lemma main_edit_branch fuel argv w args text :
  parse_args argparse (effective_argv sys_argv argv) = inr args ->
  files w !! ns_input args = Some (Utf8 text) ->
  let message := Py.universal_newlines text in
  let scopes := scopes_of_args (ns_scopes args) in
  negb (ns_strict args) && has_autosquash_prefix message = false ->
  is_conventional message (ns_types args) (ns_optional_scope args) scopes
  = false ->
  ns_edit args = true ->
  hook_main fuel argv w =
    match run_process git_var_cmd (files w) (env w) with
    | (inl e, fs, e') =>
        (Raised e,
         World fs e' (log (checked args message w) ++ [EvRun git_var_cmd]))
    | (inr done, fs, e') =>
        hook_loop fuel args scopes (Py.rstrip "010" (stdout done))
          (World fs e' (log (checked args message w) ++ [EvRun git_var_cmd]))
    end.
Proof.
  intros Hparse Hfile message scopes Hexempt Hbad Hedit.
  rewrite (main_parsed _ _ _ _ _ _ _ _ _ _ _ _ Hparse Hfile).
  fold message. fold scopes. rewrite Hexempt, Hbad, Hedit. cbn [negb].
  unfold bind, subprocess_run.
  destruct (checked_frame args message w) as [-> ->].
  fold git_var_cmd.
  destruct (run_process git_var_cmd (files w) (env w)) as [[[e|done] fs] e'];
    reflexivity.
Qed.

(** *** A round that does not raise *)

Lemma round_value_inv args scopes editor w b w' :
  round args scopes editor w = (Val b, w') ->
  exists text,
    files w !! ns_input args = Some (Utf8 text) /\
    let message := Py.universal_newlines text in
    let w1 := record (EvClassify message (ns_types args)
                        (ns_optional_scope args) scopes)
                (record (EvRead (ns_input args)) w) in
    is_conventional message (ns_types args) (ns_optional_scope args) scopes
    = b /\
    if b then w' = w1
    else
      exists now done,
        write_texts (ns_input args) (header_for args) message (files w)
          (env w) = Written now /\
        run_process [editor; ns_input args]
          (<[ns_input args := now]> (files w)) (env w)
        = (inr done, files w', env w') /\
        log w'
        = log w1 ++ [EvWrite (ns_input args) (header_for args +:+ message);
                     EvRun [editor; ns_input args]].
Proof.
  intros Hround.
  destruct (files w !! ns_input args) as [[text|]|] eqn:Hfile.
  - exists text. split; [reflexivity|].
    rewrite (round_text _ _ _ _ _ _ _ _ _ Hfile) in Hround. cbn zeta.
    destruct (is_conventional _ _ _ scopes) eqn:Hok.
    + injection Hround as <- <-. now split.
    + cbn zeta in Hround.
      destruct (write_texts _ _ _ _ _) as [e|e kept|now] eqn:Hwrite;
        try discriminate Hround.
      destruct (run_process _ _ _) as [[[e|done] fs] e'] eqn:Hrun;
        cbn in Hround; [discriminate|].
      injection Hround as <- <-. split; [reflexivity|].
      exists now, done. split; [reflexivity|]. split; [exact Hrun|].
      cbn [log record]. now rewrite <- !app_assoc.
  - unfold loop_round, bind in Hround.
    now rewrite (read_message_undecodable _ _ Hfile) in Hround.
  - unfold loop_round, bind in Hround.
    now rewrite (read_message_missing _ _ Hfile) in Hround.
Qed.

(** *** The events of the loop *)

Lemma round_events args scopes editor w :
  exists evs,
    log (round args scopes editor w).2 = log w ++ evs /\
    Forall (loop_event (header_for args) args scopes editor) evs /\
    (forall b, (round args scopes editor w).1 = Val b ->
               Forall (fun e => ~ is_print e) evs).
Proof.
  destruct (files w !! ns_input args) as [[text|]|] eqn:Hfile.
  - rewrite (round_text _ _ _ _ _ _ _ _ _ Hfile).
    destruct (is_conventional _ _ _ scopes) eqn:Hok.
    + eexists. split; [cbn; rewrite <- app_assoc; reflexivity|].
      split; [now repeat constructor|].
      intros _ _. repeat constructor; now intros [].
    + cbn zeta.
      destruct (write_texts _ _ _ _ _) as [e|e kept|now];
        (eexists; split; [cbn; rewrite <- !app_assoc; reflexivity|]);
        (split; [repeat constructor; now eexists|]);
        intros _ _; repeat constructor; now intros [].
  - unfold loop_round, bind. rewrite (read_message_undecodable _ _ Hfile).
    eexists. split; [cbn; rewrite <- app_assoc; reflexivity|].
    split; [now repeat constructor|]. intros b Hb. discriminate Hb.
  - unfold loop_round, bind. rewrite (read_message_missing _ _ Hfile).
    eexists. split; [reflexivity|].
    split; [now repeat constructor|]. intros b Hb. discriminate Hb.
Qed.

Lemma loop_events args scopes editor fuel : forall w,
  exists evs,
    log (hook_loop fuel args scopes editor w).2 = log w ++ evs /\
    Forall (loop_event (header_for args) args scopes editor) evs /\
    (forall code, (hook_loop fuel args scopes editor w).1 = Val code ->
                  Forall (fun e => ~ is_print e) evs).
Proof.
  induction fuel as [|fuel IH]; intros w.
  - exists []. split; [cbn; now rewrite app_nil_r|].
    split; [constructor|]. intros code Hcode. discriminate Hcode.
  - rewrite loop_unfold.
    destruct (round_events args scopes editor w) as (evs & Hlog & Hevs & Hq).
    destruct (round args scopes editor w) as [[[|]|e|] w1];
      cbn [fst snd] in Hlog, Hq.
    + exists evs. split; [exact Hlog|]. split; [exact Hevs|].
      intros _ _. now apply (Hq true).
    + destruct (IH w1) as (evs' & Hlog' & Hevs' & Hq').
      exists (evs ++ evs'). split; [now rewrite Hlog', Hlog, app_assoc|].
      split; [now apply Forall_app|].
      intros code Hcode. apply Forall_app. split; [now apply (Hq false)|].
      now apply (Hq' code).
    + exists evs. split; [exact Hlog|]. split; [exact Hevs|].
      intros code Hcode. discriminate Hcode.
    + exists evs. split; [exact Hlog|]. split; [exact Hevs|].
      intros code Hcode. discriminate Hcode.
Qed.

(** *** More fuel changes no answer *)

Lemma loop_fuel_mono args scopes editor fuel : forall w r w',
  hook_loop fuel args scopes editor w = (r, w') ->
  r <> OutOfFuel ->
  forall extra,
    hook_loop (fuel + extra) args scopes editor w = (r, w').
Proof.
  induction fuel as [|fuel IH]; intros w r w' Hloop Hr extra.
  - cbn in Hloop. injection Hloop as <- <-. now destruct Hr.
  - change (S fuel + extra)%nat with (S (fuel + extra)).
    rewrite loop_unfold in Hloop |- *.
    destruct (round args scopes editor w) as [[[|]|e|] w1];
      try exact Hloop.
    now apply IH.
Qed.

(** *** The outcomes of [main], case by case *)

Lemma main_outcome fuel argv w args :
  parse_args argparse (effective_argv sys_argv argv) = inr args ->
  let scopes := scopes_of_args (ns_scopes args) in
  (files w !! ns_input args = None /\
   hook_main fuel argv w
   = (Raised OSError, record (EvRead (ns_input args)) w)) \/
  (files w !! ns_input args = Some NotUtf8 /\
   hook_main fuel argv w
   = (Raised (SystemExit RESULT_FAIL),
      record (EvPrint encoding_error_text)
        (record (EvRead (ns_input args)) w))) \/
  exists text,
    files w !! ns_input args = Some (Utf8 text) /\
    let message := Py.universal_newlines text in
    let exempt := negb (ns_strict args) && has_autosquash_prefix message in
    let conforms := is_conventional message (ns_types args)
                      (ns_optional_scope args) scopes in
    (exempt = true /\
     hook_main fuel argv w
     = (Val RESULT_SUCCESS,
        record (EvAutosquash message) (record (EvRead (ns_input args)) w)))
    \/
    (exempt = false /\ conforms = true /\
     hook_main fuel argv w = (Val RESULT_SUCCESS, checked args message w))
    \/
    (exempt = false /\ conforms = false /\ ns_edit args = false /\
     hook_main fuel argv w
     = (Val RESULT_FAIL,
        record (EvPrint (bad_message_text message
                           (types_line conventional_types (ns_types args))))
          (checked args message w)))
    \/
    (exempt = false /\ conforms = false /\ ns_edit args = true /\
     hook_main fuel argv w =
       match run_process git_var_cmd (files w) (env w) with
       | (inl e, fs, e') =>
           (Raised e,
            World fs e'
              (log (checked args message w) ++ [EvRun git_var_cmd]))
       | (inr done, fs, e') =>
           hook_loop fuel args scopes (Py.rstrip "010" (stdout done))
             (World fs e'
                (log (checked args message w) ++ [EvRun git_var_cmd]))
       end).
Proof.
  intros Hparse scopes.
  destruct (files w !! ns_input args) as [[text|]|] eqn:Hfile.
  - right. right. exists text. split; [reflexivity|]. cbn zeta.
    destruct (negb (ns_strict args)
              && has_autosquash_prefix (Py.universal_newlines text))
      eqn:Hexempt.
    { left. split; [reflexivity|].
      rewrite (main_parsed _ _ _ _ _ _ _ _ _ _ _ _ Hparse Hfile).
      now rewrite Hexempt. }
    right.
    destruct (is_conventional (Py.universal_newlines text) (ns_types args)
                (ns_optional_scope args) scopes) eqn:Hok.
    { left. split; [reflexivity|]. split; [reflexivity|].
      rewrite (main_parsed _ _ _ _ _ _ _ _ _ _ _ _ Hparse Hfile).
      fold scopes. now rewrite Hexempt, Hok. }
    right.
    destruct (ns_edit args) eqn:Hedit.
    + right. repeat (split; [reflexivity|]).
      now apply main_edit_branch.
    + left. repeat (split; [reflexivity|]).
      rewrite (main_parsed _ _ _ _ _ _ _ _ _ _ _ _ Hparse Hfile).
      fold scopes. now rewrite Hexempt, Hok, Hedit.
  - right. left. split; [reflexivity|].
    apply main_unreadable; [assumption| |]; now rewrite Hfile.
  - left. split; [reflexivity|]. now apply main_missing.
Qed.

(** X1: whenever [main] returns, it returns 0 or 1. *)
Theorem exit_status_zero_or_one fuel argv w code w' :
  main sys_argv argparse has_autosquash_prefix is_conventional
    conventional_types run_process write_texts fuel argv w = (Val code, w') ->
  code = 0 \/ code = 1.
Proof.
  intros Hmain.
  destruct (parse_args argparse (effective_argv sys_argv argv))
    as [bad|args] eqn:Hparse.
  - unfold main in Hmain. rewrite Hparse in Hmain.
    injection Hmain as <- _. now right.
  - destruct (main_outcome fuel argv w args Hparse)
      as [[_ H]|[[_ H]|(text & _ & [[_ H]|[(_ & _ & H)|[(_ & _ & _ & H)
                                    |(_ & _ & _ & H)]]])]];
      rewrite H in Hmain; try discriminate Hmain;
      try (injection Hmain as <- _; now (left + right)).
    destruct (run_process git_var_cmd (files w) (env w))
      as [[[e|done] fs] e']; [discriminate Hmain|].
    apply loop_value_inv in Hmain as [-> _]. now left.
Qed.

(** X2: under [--edit], [main] never returns [RESULT_FAIL]: a value it
    returns is [RESULT_SUCCESS]. *)
Theorem edit_never_returns_fail fuel argv w args code w' :
  parse_args argparse (effective_argv sys_argv argv) = inr args ->
  ns_edit args = true ->
  hook_main fuel argv w = (Val code, w') ->
  code = RESULT_SUCCESS.
Proof.
  intros Hparse Hedit Hmain.
  destruct (main_outcome fuel argv w args Hparse)
    as [[_ H]|[[_ H]|(text & _ & [[_ H]|[(_ & _ & H)|[(_ & _ & Hno & H)
                                  |(_ & _ & _ & H)]]])]];
    rewrite H in Hmain; try discriminate Hmain;
    try (now injection Hmain as <- _); try congruence.
  destruct (run_process git_var_cmd (files w) (env w))
    as [[[e|done] fs] e']; [discriminate Hmain|].
  now apply loop_value_inv in Hmain as [-> _].
Qed.

Lemma checked_log args message w :
  log (checked args message w)
  = log w ++ EvRead (ns_input args)
             :: (if ns_strict args then [] else [EvAutosquash message])
             ++ [EvClassify message (ns_types args) (ns_optional_scope args)
                   (scopes_of_args (ns_scopes args))].
Proof.
  unfold checked. destruct (ns_strict args); cbn; now rewrite <- !app_assoc.
Qed.

(** X3: a run of [main] that returns success has printed nothing, and a
    run that returns failure after the command line was parsed has
    printed, as its last action, the text about the message it read. *)
Theorem prints_exactly_on_failure fuel argv w code w' :
  hook_main fuel argv w = (Val code, w') ->
  (code = RESULT_SUCCESS ->
   exists evs, log w' = log w ++ evs /\
               Forall (fun e => ~ is_print e) evs) /\
  (forall args,
     parse_args argparse (effective_argv sys_argv argv) = inr args ->
     code = RESULT_FAIL ->
     exists text,
       files w !! ns_input args = Some (Utf8 text) /\
       w' = record (EvPrint (bad_message_text (Py.universal_newlines text)
                               (types_line conventional_types
                                  (ns_types args))))
              (checked args (Py.universal_newlines text) w)).
Proof.
  intros Hmain.
  destruct (parse_args argparse (effective_argv sys_argv argv))
    as [bad|args] eqn:Hparse.
  { unfold main in Hmain. rewrite Hparse in Hmain.
    injection Hmain as <- _. split; [discriminate|]. discriminate. }
  destruct (main_outcome fuel argv w args Hparse)
    as [[_ H]|[[_ H]|(text & Hfile & [[_ H]|[(_ & _ & H)|[(_ & _ & _ & H)
                                  |(_ & _ & _ & H)]]])]];
    rewrite H in Hmain; try discriminate Hmain.
  - injection Hmain as <- <-. split; [|intros ? _ ?; discriminate].
    intros _. eexists. split; [cbn; rewrite <- app_assoc; reflexivity|].
    repeat constructor; now intros [].
  - injection Hmain as <- <-. split; [|intros ? _ ?; discriminate].
    intros _. eexists. split; [apply checked_log|].
    destruct (ns_strict args); repeat constructor; now intros [].
  - injection Hmain as <- <-. split; [discriminate|].
    intros args' [= <-] _. now exists text.
  - destruct (run_process git_var_cmd (files w) (env w))
      as [[[e|done] fs] e']; [discriminate Hmain|].
    pose proof Hmain as [-> _]%loop_value_inv.
    split; [|intros ? _ ?; discriminate]. intros _.
    match type of Hmain with
    | edit_loop _ _ _ _ _ _ ?sc ?ed ?w0 = _ =>
        destruct (loop_events args sc ed fuel w0) as (evs & Hlog & _ & Hq)
    end.
    rewrite Hmain in Hlog, Hq. cbn [fst snd log] in Hlog, Hq.
    rewrite Hlog, checked_log, <- !app_assoc. cbn [app].
    eexists. split; [reflexivity|].
    constructor; [now intros []|].
    apply Forall_app. split.
    { destruct (ns_strict args); repeat constructor; now intros []. }
    constructor; [now intros []|]. now apply (Hq RESULT_SUCCESS).
Qed.

(** The fuel of the embedding bounds the rounds and nothing else: a run
    that ends within [fuel] rounds ends the same way with more. *)
Lemma main_fuel_monotone fuel argv w r w' :
  main sys_argv argparse has_autosquash_prefix is_conventional
    conventional_types run_process write_texts fuel argv w = (r, w') ->
  r <> OutOfFuel ->
  forall extra,
    main sys_argv argparse has_autosquash_prefix is_conventional
      conventional_types run_process
        write_texts (fuel + extra) argv w = (r, w').
Proof.
  unfold main.
  destruct (parse_args argparse _) as [code|args]; [now intros|].
  unfold bind.
  destruct (read_message_or_exit (ns_input args) w) as [[message|e|] w1];
    try (now intros).
  destruct ((if negb (ns_strict args)
             then call_has_autosquash_prefix has_autosquash_prefix message
             else ret false) w1) as [[[|]|e|] w2]; try (now intros).
  destruct (call_is_conventional _ _ _ _ _ w2) as [[[|]|e|] w3];
    try (now intros).
  destruct (negb (ns_edit args)); [now intros|].
  destruct (subprocess_run run_process _ w3) as [[done|e|] w4];
    try (now intros).
  apply loop_fuel_mono.
Qed.

(** X5: when [main] returns success, the message file as it is then
    holds a text that conforms, or that was exempt as an autosquash
    message when [main] started. *)
Theorem success_means_file_conforms fuel argv w args w' :
  parse_args argparse (effective_argv sys_argv argv) = inr args ->
  hook_main fuel argv w = (Val RESULT_SUCCESS, w') ->
  exists text,
    files w' !! ns_input args = Some (Utf8 text) /\
    let message := Py.universal_newlines text in
    (negb (ns_strict args) && has_autosquash_prefix message = true /\
     files w' = files w) \/
    is_conventional message (ns_types args) (ns_optional_scope args)
      (scopes_of_args (ns_scopes args)) = true.
Proof.
  intros Hparse Hmain.
  destruct (main_outcome fuel argv w args Hparse)
    as [[_ H]|[[_ H]|(text & Hfile & [[Hex H]|[(_ & Hok & H)
                        |[(_ & _ & _ & H)|(_ & _ & _ & H)]]])]];
    rewrite H in Hmain; try discriminate Hmain.
  - injection Hmain as <-. exists text. split; [exact Hfile|].
    left. now split.
  - injection Hmain as <-. exists text.
    rewrite (proj1 (checked_frame _ _ _)). split; [exact Hfile|].
    now right.
  - destruct (run_process git_var_cmd (files w) (env w))
      as [[[e|done] fs] e']; [discriminate Hmain|].
    apply loop_value_inv in Hmain as (_ & k & wk & _ & _ & Hround).
    apply round_value_inv in Hround as (text' & Hfile' & Hok & ->).
    exists text'. split; [exact Hfile'|]. now right.
Qed.

(** X6: the autosquash detector is consulted on the message first read
    and on nothing else: a run is the same for any two detectors that
    agree on that message, so a message turned into an autosquash message
    in the editor is not exempt. *)
Theorem autosquash_on_first_message_only fuel argv w args text detector :
  parse_args argparse (effective_argv sys_argv argv) = inr args ->
  files w !! ns_input args = Some (Utf8 text) ->
  detector (Py.universal_newlines text)
  = has_autosquash_prefix (Py.universal_newlines text) ->
  main sys_argv argparse detector is_conventional conventional_types
    run_process write_texts fuel argv w
  = hook_main fuel argv w.
Proof.
  intros Hparse Hfile Hagree.
  rewrite !(main_parsed _ _ _ _ _ _ _ _ _ _ _ _ Hparse Hfile).
  now rewrite Hagree.
Qed.

(** X7: the editor is asked of git at most once in a run, before any
    editor is started, and every later process is that editor, its name
    being the output of [git var GIT_EDITOR] without the line feeds at
    its end, started on the message file. *)
Theorem editor_resolved_once fuel argv w args :
  parse_args argparse (effective_argv sys_argv argv) = inr args ->
  exists evs,
    log (hook_main fuel argv w).2 = log w ++ evs /\
    (Forall (fun e => match e with EvRun _ => False | _ => True end) evs \/
     exists before after,
       evs = before ++ EvRun git_var_cmd :: after /\
       Forall (fun e => match e with
                        | EvRun _ | EvWrite _ _ => False
                        | _ => True
                        end) before /\
       Forall (fun e =>
                 match e with
                 | EvRun cmd =>
                     exists done fs e',
                       run_process git_var_cmd (files w) (env w)
                       = (inr done, fs, e') /\
                       cmd = [Py.rstrip "010" (stdout done); ns_input args]
                 | _ => True
                 end) after).
Proof.
  intros Hparse.
  destruct (main_outcome fuel argv w args Hparse)
    as [[_ H]|[[_ H]|(text & Hfile & [[_ H]|[(_ & _ & H)|[(_ & _ & _ & H)
                                  |(_ & _ & _ & H)]]])]];
    rewrite H; clear H.
  - eexists. split; [reflexivity|]. left. now repeat constructor.
  - eexists. split; [cbn; rewrite <- app_assoc; reflexivity|].
    left. now repeat constructor.
  - eexists. split; [cbn; rewrite <- app_assoc; reflexivity|].
    left. now repeat constructor.
  - eexists. split; [apply checked_log|]. left.
    destruct (ns_strict args); now repeat constructor.
  - eexists. split; [cbn [snd record log]; rewrite checked_log,
                       <- !app_assoc; reflexivity|].
    left. destruct (ns_strict args); now repeat constructor.
  - assert (Hpre : exists before,
              log (checked args (Py.universal_newlines text) w)
              = log w ++ before /\
              Forall (fun e => match e with
                               | EvRun _ | EvWrite _ _ => False
                               | _ => True
                               end) before).
    { eexists. split; [apply checked_log|].
      destruct (ns_strict args); now repeat constructor. }
    destruct Hpre as (before & Hbefore & Hquiet).
    destruct (run_process git_var_cmd (files w) (env w))
      as [[[e|done] fs] e'] eqn:Hrun.
    + exists (before ++ [EvRun git_var_cmd]).
      split; [cbn [snd log]; now rewrite Hbefore, <- app_assoc|].
      right. exists before, []. now repeat split.
    + match goal with
      | |- context [edit_loop _ _ _ _ fuel args ?sc ?ed ?w0] =>
          destruct (loop_events args sc ed fuel w0) as (evs & Hlog & Hevs & _)
      end.
      exists (before ++ EvRun git_var_cmd :: evs).
      split; [rewrite Hlog; cbn [log]; now rewrite Hbefore, <- !app_assoc|].
      right. exists before, evs. split; [reflexivity|].
      split; [exact Hquiet|].
      eapply Forall_impl; [exact Hevs|].
      intros [] He; cbn in He |- *; try exact I.
      exists done, fs, e'. now split.
Qed.

(** X9: once the first message has failed under [--edit] and git has
    named the editor without touching the message file, the first round
    of the loop fails on the same message: before [main] can return, the
    hook opens the file to write the help header followed by that
    message.  If the open or a write fails, the run ends by that
    exception and no editor is started; after a complete write the
    editor is started on the file as written. *)
Theorem first_round_opens_editor fuel argv w args text done fs e' :
  parse_args argparse (effective_argv sys_argv argv) = inr args ->
  files w !! ns_input args = Some (Utf8 text) ->
  let message := Py.universal_newlines text in
  let scopes := scopes_of_args (ns_scopes args) in
  let editor := Py.rstrip "010" (stdout done) in
  negb (ns_strict args) && has_autosquash_prefix message = false ->
  is_conventional message (ns_types args) (ns_optional_scope args) scopes
  = false ->
  ns_edit args = true ->
  run_process git_var_cmd (files w) (env w) = (inr done, fs, e') ->
  fs !! ns_input args = Some (Utf8 text) ->
  hook_main 0 argv w
  = (OutOfFuel,
     World fs e' (log (checked args message w) ++ [EvRun git_var_cmd])) /\
  let call :=
    log (checked args message w)
    ++ [EvRun git_var_cmd; EvRead (ns_input args);
        EvClassify message (ns_types args) (ns_optional_scope args) scopes;
        EvWrite (ns_input args) (header_for args +:+ message)] in
  hook_main (S fuel) argv w =
    match write_texts (ns_input args) (header_for args) message fs e' with
    | OpenFailed x => (Raised x, World fs e' call)
    | WriteFailed x kept =>
        (Raised x, World (<[ns_input args := kept]> fs) e' call)
    | Written now =>
        match run_process [editor; ns_input args]
                (<[ns_input args := now]> fs) e'
        with
        | (inl x, fs2, e2) =>
            (Raised x,
             World fs2 e2 (call ++ [EvRun [editor; ns_input args]]))
        | (inr _, fs2, e2) =>
            hook_loop fuel args scopes editor
              (World fs2 e2 (call ++ [EvRun [editor; ns_input args]]))
        end
    end.
Proof.
  intros Hparse Hfile message scopes editor Hexempt Hbad Hedit Hgit Hkept.
  split.
  - rewrite (main_edit_branch 0%nat argv w args text Hparse Hfile
               Hexempt Hbad Hedit), Hgit.
    reflexivity.
  - cbn zeta.
    rewrite (main_edit_branch (S fuel) argv w args text Hparse Hfile
               Hexempt Hbad Hedit), Hgit.
    fold message scopes editor. rewrite loop_unfold.
    rewrite (round_text is_conventional conventional_types run_process
               write_texts args scopes editor (World fs e' _) text Hkept).
    fold message. rewrite Hbad. cbn zeta. cbn [files env log record].
    destruct (write_texts (ns_input args) _ message fs e')
      as [x|x kept|now].
    + now rewrite <- !app_assoc.
    + now rewrite <- !app_assoc.
    + destruct (run_process [editor; ns_input args] _ e')
        as [[[x|status] fs2] e2]; cbn [fst snd];
        rewrite <- !app_assoc; reflexivity.
Qed.

Lemma stacked_succ_r header k text :
  stacked header k (header +:+ Py.universal_newlines text)
  = stacked header (S k) text.
Proof.
  unfold stacked.
  now rewrite (Nat.iter_succ_r k (fun t => header +:+ Py.universal_newlines t)).
Qed.

(** X10: when every write of the header and a message succeeds and
    leaves the two texts in the file as UTF-8 (the file can be written
    and the locale encodes in UTF-8), the editor leaves the files as
    they are, and the classifier rejects what it is shown, every round
    puts one more help header in front of the message: after [k] rounds
    the file holds [k] headers before the first text, every other file
    being as before, and the loop has not ended. *)
Theorem header_stacks_up args scopes editor k : forall w text,
  (forall message fs e,
     write_texts (ns_input args) (header_for args) message fs e
     = Written (Utf8 (header_for args +:+ message))) ->
  (forall fs e,
     exists done,
       run_process [editor; ns_input args] fs e = (inr done, fs, e)) ->
  files w !! ns_input args = Some (Utf8 text) ->
  (forall i, (i < k)%nat ->
     is_conventional
       (Py.universal_newlines (stacked (header_for args) i text))
       (ns_types args) (ns_optional_scope args) scopes = false) ->
  (hook_loop k args scopes editor w).1 = OutOfFuel /\
  exists wk,
    rounds k args scopes editor w = Some wk /\
    files wk
    = <[ns_input args := Utf8 (stacked (header_for args) k text)]> (files w)
    /\ env wk = env w.
Proof.
  intros w text Hwrite Hidle Hfile Hbad.
  assert (Hrounds : exists wk,
            rounds k args scopes editor w = Some wk /\
            files wk
            = <[ns_input args := Utf8 (stacked (header_for args) k text)]>
                (files w) /\
            env wk = env w).
  { revert w text Hfile Hbad.
    induction k as [|k IH]; intros w text Hfile Hbad.
    - exists w. split; [reflexivity|]. split; [|reflexivity].
      cbn. symmetry. now apply insert_id.
    - cbn [after_rounds].
      rewrite (round_text _ _ _ _ _ _ _ _ _ Hfile).
      pose proof (Hbad 0%nat ltac:(lia)) as Hfirst.
      change (stacked (header_for args) 0 text) with text in Hfirst.
      rewrite Hfirst. cbn zeta. rewrite Hwrite.
      destruct (Hidle (<[ns_input args :=
                           Utf8 (header_for args
                                 +:+ Py.universal_newlines text)]> (files w))
                  (env w)) as [done Hrun].
      rewrite Hrun. cbn [fst snd].
      match goal with
      | |- context [after_rounds _ _ _ _ k args scopes editor ?w1] =>
          destruct (IH w1 (header_for args +:+ Py.universal_newlines text))
            as (wk & Hk & Hfiles & Henv)
      end.
      + cbn [files]. apply lookup_insert_eq.
      + intros i Hi. rewrite stacked_succ_r. apply Hbad. lia.
      + exists wk. split; [exact Hk|]. split; [|exact Henv].
        rewrite Hfiles. cbn [files].
        now rewrite insert_insert_eq, stacked_succ_r. }
  split; [|exact Hrounds].
  apply loop_out_of_fuel. destruct Hrounds as (wk & -> & _). now eexists.
Qed.

(** X14: [main] never looks at the exit status of a process it starts,
    git or the editor: with a process table that reports other statuses
    and is otherwise the same, the run is the same. *)
Theorem process_status_never_read status fuel argv w :
  main sys_argv argparse has_autosquash_prefix is_conventional
    conventional_types (with_status status run_process) write_texts fuel
    argv w
  = hook_main fuel argv w.
Proof. apply main_with_status. Qed.

(** X15: an empty [argv] makes [main] read the command line of the
    process, [sys.argv] without its first entry; any other [argv] is
    used as it is, whatever [sys.argv] holds. *)
Theorem empty_argv_falls_back fuel w :
  hook_main fuel [] w = hook_main fuel (drop 1 sys_argv) w /\
  (forall argv other_argv,
     argv <> [] ->
     main other_argv argparse has_autosquash_prefix is_conventional
       conventional_types run_process write_texts fuel argv w
     = hook_main fuel argv w).
Proof.
  split.
  - unfold main, effective_argv.
    change (length (@nil string) <? 1)%nat with true. cbn iota.
    now destruct (length (drop 1 sys_argv) <? 1)%nat.
  - intros [|arg argv] other_argv Hne; [now destruct Hne|reflexivity].
Qed.


(** X8: a message file that cannot be read ends the run by an
    exception, never by an exit status, and is not written to.  A
    missing file raises [OSError] out of [main], which catches the
    [SystemExit] of the parser only, and out of a round of the loop; a
    file that is not UTF-8 ends a round with [SystemExit] and status 1
    after the text about the encoding. *)
Theorem unreadable_file_raises args scopes editor w :
  (files w !! ns_input args = None ->
   (forall fuel argv,
      parse_args argparse (effective_argv sys_argv argv) = inr args ->
      hook_main fuel argv w
      = (Raised OSError, record (EvRead (ns_input args)) w)) /\
   round args scopes editor w
   = (Raised OSError, record (EvRead (ns_input args)) w)) /\
  (files w !! ns_input args = Some NotUtf8 ->
   round args scopes editor w
   = (Raised (SystemExit RESULT_FAIL),
      record (EvPrint encoding_error_text)
        (record (EvRead (ns_input args)) w)) /\
   forall fuel,
     hook_loop (S fuel) args scopes editor w
     = (Raised (SystemExit RESULT_FAIL),
        record (EvPrint encoding_error_text)
          (record (EvRead (ns_input args)) w))).
Proof.
  split.
  - intros Hfile. split.
    + intros fuel argv Hparse. now apply main_missing.
    + unfold loop_round, bind. now rewrite (read_message_missing _ _ Hfile).
  - intros Hfile.
    assert (Hround : round args scopes editor w
                     = (Raised (SystemExit RESULT_FAIL),
                        record (EvPrint encoding_error_text)
                          (record (EvRead (ns_input args)) w))).
    { unfold loop_round, bind.
      now rewrite (read_message_undecodable _ _ Hfile). }
    split; [exact Hround|]. intros fuel.
    now rewrite loop_unfold, Hround.
Qed.

End Further.

(** * Properties of the text helpers as the hook uses them *)

Module TextFacts.

Lemma split_nonempty sep s : Py.split sep s <> [].
Proof.
  destruct s as [|c rest]; [discriminate|]. cbn [Py.split].
  case_decide; [discriminate|]. now destruct (Py.split sep rest).
Qed.

Lemma join_cons_nonempty sep p rest :
  rest <> [] -> Py.join sep (p :: rest) = p +:+ sep +:+ Py.join sep rest.
Proof. now destruct rest. Qed.

Lemma join_string_cons sep c field fields :
  Py.join sep (String c field :: fields)
  = String c (Py.join sep (field :: fields)).
Proof. now destruct fields. Qed.

Lemma join_split sep s : Py.join (String sep "") (Py.split sep s) = s.
Proof.
  induction s as [|c rest IH]; [reflexivity|]. cbn [Py.split].
  case_decide as Hc.
  - subst c. rewrite join_cons_nonempty by apply split_nonempty.
    now rewrite IH.
  - destruct (Py.split sep rest) as [|field fields] eqn:Hsplit;
      [now destruct (split_nonempty sep rest)|].
    now rewrite join_string_cons, IH.
Qed.

Lemma split_fields sep s :
  Forall (fun field => Text.count sep field = 0%nat) (Py.split sep s).
Proof.
  induction s as [|c rest IH]; [now repeat constructor|]. cbn [Py.split].
  case_decide as Hc; [now constructor|].
  destruct (Py.split sep rest) as [|field fields].
  { constructor; [|constructor]. cbn [Text.count].
    now rewrite decide_False. }
  inversion IH as [|? ? Hfield Hfields]; subst.
  constructor; [|assumption]. cbn [Text.count].
  now rewrite decide_False.
Qed.

Lemma split_length sep s :
  length (Py.split sep s) = S (Text.count sep s).
Proof.
  induction s as [|c rest IH]; [reflexivity|]. cbn [Py.split Text.count].
  case_decide as Hc.
  - cbn [length]. now rewrite IH.
  - destruct (Py.split sep rest) as [|field fields]; [discriminate IH|].
    exact IH.
Qed.

(** X11: the allow-list that [main] builds from a [--scopes] value is
    never empty, none of its entries holds a comma (an entry may be
    empty), it has one entry more than the value has commas, and its
    entries joined by commas are the value again. *)
Theorem scopes_list_shape value allowed :
  scopes_of_args (Some value) = ScopesList allowed ->
  value <> "" /\
  allowed <> [] /\
  Forall (fun scope => Text.count "," scope = 0%nat) allowed /\
  length allowed = S (Text.count "," value) /\
  Py.join "," allowed = value.
Proof.
  unfold scopes_of_args.
  destruct (Py.truthy value) eqn:Htruthy; [|discriminate].
  intros [= <-].
  split; [now destruct value|]. split; [apply split_nonempty|].
  split; [apply split_fields|]. split; [apply split_length|].
  apply (join_split ",").
Qed.

(** Reading a character that is not a carriage return keeps it. *)
Lemma universal_newlines_other c rest :
  c <> "013"%char ->
  Py.universal_newlines (String c rest)
  = String c (Py.universal_newlines rest).
Proof.
  intros Hc.
  destruct c as [[] [] [] [] [] [] [] []]; try reflexivity.
  now destruct Hc.
Qed.

Lemma universal_newlines_cr rest :
  exists rest',
    Py.universal_newlines (String "013" rest)
    = String "010" (Py.universal_newlines rest') /\
    (String.length rest' <= String.length rest)%nat.
Proof.
  destruct rest as [|c rest']; [now exists ""|].
  destruct (decide (c = "010"%char)) as [->|Hc].
  - exists rest'. split; [reflexivity|]. cbn. lia.
  - exists (String c rest'). split; [|reflexivity].
    destruct c as [[] [] [] [] [] [] [] []]; try reflexivity.
    now destruct Hc.
Qed.

Lemma universal_newlines_no_cr s :
  Text.count "013" (Py.universal_newlines s) = 0%nat.
Proof.
  remember (String.length s) as n eqn:Hn.
  assert (Hle : (String.length s <= n)%nat) by lia. clear Hn.
  revert s Hle. induction n as [|n IH]; intros s Hle.
  - destruct s; [reflexivity|]. cbn in Hle. lia.
  - destruct s as [|c rest]; [reflexivity|]. cbn [String.length] in Hle.
    destruct (decide (c = "013"%char)) as [->|Hc].
    + destruct (universal_newlines_cr rest) as (rest' & -> & Hlen).
      cbn [Text.count]. rewrite decide_False by discriminate.
      apply IH. lia.
    + rewrite (universal_newlines_other _ _ Hc). cbn [Text.count].
      rewrite decide_False by assumption. apply IH. lia.
Qed.

Lemma universal_newlines_id s :
  Text.count "013" s = 0%nat -> Py.universal_newlines s = s.
Proof.
  induction s as [|c rest IH]; [reflexivity|]. cbn [Text.count].
  case_decide as Hc; [discriminate|]. intros Hrest.
  now rewrite (universal_newlines_other _ _ Hc), (IH Hrest).
Qed.

Lemma universal_newlines_crlf line rest :
  Text.count "013" line = 0%nat ->
  Py.universal_newlines (line +:+ String "013" (String "010" rest))
  = line +:+ String "010" (Py.universal_newlines rest).
Proof.
  induction line as [|c line IH]; [reflexivity|].
  cbn [Text.count]. case_decide as Hc; [discriminate|]. intros Hline.
  rewrite FormatFacts.app_cons, (universal_newlines_other _ _ Hc).
  rewrite FormatFacts.app_cons. f_equal. now apply IH.
Qed.

(** X12: the message that [read_message_or_exit] returns holds no
    carriage return: line ends written as a carriage return, with or
    without a line feed, reach the classifier as line feeds, and a text
    free of carriage returns is returned as it is.  The read leaves the
    files and the environment alone. *)
Theorem message_has_no_carriage_return {Env : Type} (w : world Env) path
    text :
  files w !! path = Some (Utf8 text) ->
  exists message,
    read_message_or_exit path w = (Val message, record (EvRead path) w) /\
    Text.count "013" message = 0%nat /\
    (Text.count "013" text = 0%nat -> message = text) /\
    (forall line rest,
       text = line +:+ String "013" (String "010" rest) ->
       Text.count "013" line = 0%nat ->
       message = line +:+ String "010" (Py.universal_newlines rest)).
Proof.
  intros Hfile. exists (Py.universal_newlines text).
  split; [now apply read_message_text|].
  split; [apply universal_newlines_no_cr|].
  split; [apply universal_newlines_id|].
  intros line rest -> Hline. now apply universal_newlines_crlf.
Qed.

Lemma rstrip_split c s :
  exists n,
    s = Py.rstrip c s +:+ Text.replicate n c /\
    (Py.rstrip c s = "" -> s = Text.replicate n c).
Proof.
  induction s as [|a rest (n & Hrest & Hall)].
  - now exists 0%nat.
  - cbn [Py.rstrip]. destruct (Py.rstrip c rest) as [|b kept] eqn:Hkept.
    + case_decide as Ha.
      * subst a. exists (S n). rewrite (Hall eq_refl). now split.
      * exists n. rewrite (Hall eq_refl). split; [reflexivity|discriminate].
    + exists n. split; [|discriminate].
      rewrite FormatFacts.app_cons. now rewrite <- Hrest.
Qed.

Lemma rstrip_last c s : forall init last,
  Format.unsnoc (Py.rstrip c s) = Some (init, last) -> last <> c.
Proof.
  induction s as [|a rest IH]; intros init last; [discriminate|].
  cbn [Py.rstrip]. destruct (Py.rstrip c rest) as [|b kept] eqn:Hkept.
  - case_decide as Ha; [discriminate|].
    intros Heq Hlast. cbn in Heq. congruence.
  - change (Format.unsnoc (String a (String b kept)))
      with (match Format.unsnoc (String b kept) with
            | None => Some ("", a)
            | Some (init', last') => Some (String a init', last')
            end).
    destruct (Format.unsnoc (String b kept)) as [[init' last']|] eqn:Hun.
    + intros Heq. assert (last = last') as -> by congruence.
      now apply (IH init' last').
    + cbn in Hun. now destruct (Format.unsnoc kept) as [[? ?]|].
Qed.

(** X13: the editor name is what git printed without the line feeds at
    its end: the output is the name followed by line feeds only, and the
    name does not end with a line feed. *)
Theorem editor_name_stripped output :
  let editor := Py.rstrip "010" output in
  (exists n, output = editor +:+ Text.replicate n "010") /\
  (forall init, editor <> init +:+ String "010" "").
Proof.
  intros editor. split.
  - destruct (rstrip_split "010" output) as (n & Hsplit & _). now exists n.
  - intros init Heq.
    apply (rstrip_last "010" output init "010"); [|reflexivity].
    fold editor. rewrite Heq. apply FormatFacts.unsnoc_snoc.
Qed.

End TextFacts.

(** * The further properties on the instances *)

Module FurtherInstances.

Local Abbreviation demo_main :=
  (main Demo.sys_argv Demo.argparse Format.has_autosquash_prefix
     Format.is_conventional Demo.conventional_types Demo.run_process utf8_write).

Lemma exit_status_zero_or_one_witness :
  exists code,
    (Demo.hook 0 [Demo.msg_path] (Demo.start "bad" [])).1 = Val code /\
    (code = 0 \/ code = 1).
Proof.
  exists 1. split; [reflexivity|].
  apply (exit_status_zero_or_one Demo.sys_argv Demo.argparse
           Format.has_autosquash_prefix Format.is_conventional
           Demo.conventional_types Demo.run_process utf8_write 0%nat [Demo.msg_path]
           (Demo.start "bad" []) 1
           (Demo.hook 0 [Demo.msg_path] (Demo.start "bad" [])).2).
  vm_compute. reflexivity.
Defined.

Lemma edit_never_returns_fail_witness :
  exists code,
    (Demo.hook 3 ["--edit"; Demo.msg_path]
       (Demo.start "bad" ["fix: typo"])).1 = Val code /\
    code = RESULT_SUCCESS.
Proof.
  exists 0. split; [vm_compute; reflexivity|].
  apply (edit_never_returns_fail Demo.sys_argv Demo.argparse
           Format.has_autosquash_prefix Format.is_conventional
           Demo.conventional_types Demo.run_process utf8_write 3%nat
           ["--edit"; Demo.msg_path] (Demo.start "bad" ["fix: typo"])
           Demo.edit_args 0
           (Demo.hook 3 ["--edit"; Demo.msg_path]
              (Demo.start "bad" ["fix: typo"])).2);
    vm_compute; reflexivity.
Defined.

Lemma prints_exactly_on_failure_witness :
  exists evs,
    log (Demo.hook 3 ["--edit"; Demo.msg_path]
           (Demo.start "bad" ["fix: typo"])).2
    = log (Demo.start "bad" ["fix: typo"]) ++ evs /\
    Forall (fun e => ~ is_print e) evs.
Proof.
  refine (proj1 (prints_exactly_on_failure Demo.sys_argv Demo.argparse
                   Format.has_autosquash_prefix Format.is_conventional
                   Demo.conventional_types Demo.run_process utf8_write 3%nat
                   ["--edit"; Demo.msg_path]
                   (Demo.start "bad" ["fix: typo"]) 0
                   (Demo.hook 3 ["--edit"; Demo.msg_path]
                      (Demo.start "bad" ["fix: typo"])).2 _) eq_refl).
  vm_compute. reflexivity.
Defined.

Lemma success_means_file_conforms_witness :
  exists text,
    files (Demo.hook 3 ["--edit"; Demo.msg_path]
             (Demo.start "bad" ["fix: typo"])).2 !! Demo.msg_path
    = Some (Utf8 text) /\
    Format.is_conventional (Py.universal_newlines text) DEFAULT_TYPES true
      ScopesNone = true.
Proof.
  destruct (success_means_file_conforms Demo.sys_argv Demo.argparse
              Format.has_autosquash_prefix Format.is_conventional
              Demo.conventional_types Demo.run_process utf8_write 3%nat
              ["--edit"; Demo.msg_path] (Demo.start "bad" ["fix: typo"])
              Demo.edit_args
              (Demo.hook 3 ["--edit"; Demo.msg_path]
                 (Demo.start "bad" ["fix: typo"])).2
              eq_refl ltac:(vm_compute; reflexivity))
    as (text & Hfile & [[_ Hsame]|Hok]).
  - exfalso. revert Hsame. vm_compute. discriminate.
  - now exists text.
Defined.

Lemma autosquash_on_first_message_only_witness :
  main Demo.sys_argv Demo.argparse (fun _ => false) Format.is_conventional
    Demo.conventional_types Demo.run_process utf8_write 3 ["--edit"; Demo.msg_path]
    (Demo.start "bad" ["fixup! bad"; "fix: typo"])
  = Demo.hook 3 ["--edit"; Demo.msg_path]
      (Demo.start "bad" ["fixup! bad"; "fix: typo"]).
Proof.
  apply (autosquash_on_first_message_only Demo.sys_argv Demo.argparse
           Format.has_autosquash_prefix Format.is_conventional
           Demo.conventional_types Demo.run_process utf8_write 3%nat
           ["--edit"; Demo.msg_path]
           (Demo.start "bad" ["fixup! bad"; "fix: typo"])
           Demo.edit_args "bad" (fun _ => false));
    vm_compute; reflexivity.
Defined.

Lemma editor_resolved_once_witness :
  exists evs,
    log (Demo.hook 3 ["--edit"; Demo.msg_path]
           (Demo.start "bad" ["fix: typo"])).2
    = log (Demo.start "bad" ["fix: typo"]) ++ evs /\
    Forall (fun e => match e with
                     | EvRun cmd =>
                         cmd = git_var_cmd \/ cmd = ["vi"; Demo.msg_path]
                     | _ => True
                     end) evs.
Proof.
  destruct (editor_resolved_once Demo.sys_argv Demo.argparse
              Format.has_autosquash_prefix Format.is_conventional
              Demo.conventional_types Demo.run_process utf8_write 3%nat
              ["--edit"; Demo.msg_path] (Demo.start "bad" ["fix: typo"])
              Demo.edit_args eq_refl) as (evs & Hlog & Hshape).
  exists evs. split; [exact Hlog|].
  destruct Hshape as [Hnone|(before & after & -> & Hbefore & Hafter)].
  - eapply Forall_impl; [exact Hnone|]. now intros [].
  - apply Forall_app. split.
    + eapply Forall_impl; [exact Hbefore|]. now intros [].
    + constructor; [now left|].
      eapply Forall_impl; [exact Hafter|].
      intros [] He; try exact I.
      destruct He as (done & fs & e' & Hgit & ->). right.
      vm_compute in Hgit. now injection Hgit as <- _ _.
Defined.

Lemma first_round_opens_editor_witness :
  exists trace,
    Demo.hook 1 ["--edit"; Demo.msg_path] (Demo.start "bad" ["fix: typo"])
    = (OutOfFuel,
       World {[ Demo.msg_path := Utf8 "fix: typo" ]} [] trace) /\
    EvWrite Demo.msg_path
      (help_header (types_line Demo.conventional_types DEFAULT_TYPES)
       +:+ "bad") ∈ trace.
Proof.
  destruct (first_round_opens_editor Demo.sys_argv Demo.argparse
              Format.has_autosquash_prefix Format.is_conventional
              Demo.conventional_types Demo.run_process utf8_write 0%nat
              ["--edit"; Demo.msg_path] (Demo.start "bad" ["fix: typo"])
              Demo.edit_args "bad" (Completed 0 "vi
") {[ Demo.msg_path := Utf8 "bad" ]} ["fix: typo"]
              eq_refl ltac:(vm_compute; reflexivity) eq_refl eq_refl eq_refl
              eq_refl ltac:(vm_compute; reflexivity)) as [_ Hround].
  eexists. split.
  - unfold Demo.hook. rewrite Hround. vm_compute. reflexivity.
  - do 6 apply list_elem_of_further. apply list_elem_of_here.
Defined.

Lemma header_stacks_up_witness :
  (edit_loop Format.is_conventional Demo.conventional_types
     Idle.run_process utf8_write 2 Demo.edit_args ScopesNone "vi"
     (Idle.start "bad")).1
  = OutOfFuel /\
  exists wk,
    after_rounds Format.is_conventional Demo.conventional_types
      Idle.run_process utf8_write 2 Demo.edit_args ScopesNone "vi"
      (Idle.start "bad")
    = Some wk /\
    files wk !! Demo.msg_path
    = Some (Utf8 (stacked
                    (help_header
                       (types_line Demo.conventional_types DEFAULT_TYPES))
                    2 "bad")).
Proof.
  destruct (header_stacks_up Format.is_conventional Demo.conventional_types
              Idle.run_process utf8_write Demo.edit_args ScopesNone "vi" 2
              (Idle.start "bad") "bad")
    as (Hloop & wk & Hrounds & Hfiles & _).
  - intros message fs e. reflexivity.
  - intros fs e. exists (Completed 1 ""). unfold Idle.run_process.
    now case_decide.
  - vm_compute. reflexivity.
  - intros [|[|i]] Hi; [reflexivity|reflexivity|lia].
  - split; [exact Hloop|]. exists wk. split; [exact Hrounds|].
    rewrite Hfiles. apply lookup_insert_eq.
Defined.

Lemma scopes_list_shape_witness :
  scopes_of_args (Some "api,client") = ScopesList ["api"; "client"] /\
  length ["api"; "client"] = S (Text.count "," "api,client") /\
  Py.join "," ["api"; "client"] = "api,client".
Proof.
  split; [reflexivity|].
  destruct (TextFacts.scopes_list_shape "api,client" ["api"; "client"]
              eq_refl) as (_ & _ & _ & Hlength & Hjoin).
  now split.
Defined.

Lemma message_has_no_carriage_return_witness :
  exists message,
    read_message_or_exit Demo.msg_path
      (Demo.start (String "f" (String "013" (String "010" "x"))) [])
    = (Val message,
       record (EvRead Demo.msg_path)
         (Demo.start (String "f" (String "013" (String "010" "x"))) []))
    /\ Text.count "013" message = 0%nat.
Proof.
  destruct (TextFacts.message_has_no_carriage_return
              (Demo.start (String "f" (String "013" (String "010" "x"))) [])
              Demo.msg_path (String "f" (String "013" (String "010" "x")))
              ltac:(vm_compute; reflexivity))
    as (message & Hread & Hclean & _).
  now exists message.
Defined.

Lemma editor_name_stripped_witness :
  Py.rstrip "010" "vi

" = "vi" /\
  forall init, Py.rstrip "010" "vi

" <> init +:+ String "010" "".
Proof.
  split; [reflexivity|].
  exact (proj2 (TextFacts.editor_name_stripped "vi

")).
Defined.

Lemma empty_argv_falls_back_witness :
  main ["other"; "--strict"] Demo.argparse Format.has_autosquash_prefix
    Format.is_conventional Demo.conventional_types Demo.run_process utf8_write 0
    [Demo.msg_path] (Demo.start "bad" [])
  = Demo.hook 0 [Demo.msg_path] (Demo.start "bad" []).
Proof.
  apply (proj2 (empty_argv_falls_back Demo.sys_argv Demo.argparse
                  Format.has_autosquash_prefix Format.is_conventional
                  Demo.conventional_types Demo.run_process utf8_write 0%nat
                  (Demo.start "bad" []))).
  discriminate.
Defined.


Lemma unreadable_file_raises_witness :
  Demo.hook 0 [Demo.msg_path] (World ∅ [] [])
  = (Raised OSError, World ∅ [] [EvRead Demo.msg_path]).
Proof.
  destruct (unreadable_file_raises Demo.sys_argv Demo.argparse
              Format.has_autosquash_prefix Format.is_conventional
              Demo.conventional_types Demo.run_process utf8_write Demo.plain_args
              ScopesNone "vi" (World ∅ [] [])) as [Hmissing _].
  destruct (Hmissing ltac:(vm_compute; reflexivity)) as [Hmain _].
  exact (Hmain 0%nat [Demo.msg_path] eq_refl).
Defined.

End FurtherInstances.
